(** * ComputerCraft block superclass (apps/code/block.js)

    A shallow embedding of [Blockly.ComputerCraft]: the camelCase
    conversion, the derivation of block names, the initialisation of a block
    from its [info] object and the generation of Lua code, followed by the
    properties of these functions that the specification states.

    JavaScript strings are modelled as [string]; the two case conversions
    ([toLowerCase], [toUpperCase]) are the ASCII ones, which is what
    JavaScript computes on strings of ASCII characters, among them the
    characters [A-Za-z] that the source documents as the domain of
    [convertFromCamelCase]; the theorems that say what a case conversion
    computes are stated for such strings.  A property that may be unset is
    an [option], [None] standing for [undefined]. *)

From Stdlib Require Import ZArith Ascii.
From stdpp Require Import base option list strings gmap.

Local Open Scope Z_scope.

(** ** The fragment of JavaScript that block.js relies on *)

Module JS.

(** The character class [[a-z]]. *)
Definition is_lower (c : ascii) : bool :=
  Nat.leb 97 (nat_of_ascii c) && Nat.leb (nat_of_ascii c) 122.

(** The character class [[A-Z]]. *)
Definition is_upper (c : ascii) : bool :=
  Nat.leb 65 (nat_of_ascii c) && Nat.leb (nat_of_ascii c) 90.

Definition char_toLowerCase (c : ascii) : ascii :=
  if is_upper c then ascii_of_nat (nat_of_ascii c + 32) else c.

Definition char_toUpperCase (c : ascii) : ascii :=
  if is_lower c then ascii_of_nat (nat_of_ascii c - 32) else c.

(** [String.prototype.toLowerCase] on strings of ASCII characters (codes
    below 128), one character of the model for each; on other characters
    JavaScript applies the Unicode mapping, which this does not model. *)
Fixpoint toLowerCase (s : string) : string :=
  match s with
  | EmptyString => EmptyString
  | String c rest => String (char_toLowerCase c) (toLowerCase rest)
  end.

(** [String.prototype.toUpperCase] on strings of ASCII characters, with
    the same restriction as [toLowerCase]. *)
Fixpoint toUpperCase (s : string) : string :=
  match s with
  | EmptyString => EmptyString
  | String c rest => String (char_toUpperCase c) (toUpperCase rest)
  end.

(** [s.charAt(n)]: the one-character string at index [n], or the empty
    string when [n] is out of range.  The index counts the characters of
    the model, which are those of JavaScript on strings of ASCII
    characters; the same holds for [slice]. *)
Definition charAt (s : string) (n : nat) : string :=
  match String.get n s with
  | Some c => String c EmptyString
  | None => EmptyString
  end.

(** [s.slice(n)] for a non-negative [n]: the suffix from index [n]. *)
Fixpoint slice (s : string) (n : nat) : string :=
  match n, s with
  | O, _ => s
  | S _, EmptyString => EmptyString
  | S m, String _ rest => slice rest m
  end.

(** [Array.prototype.join] on an array of strings. *)
Fixpoint join (sep : string) (l : list string) : string :=
  match l with
  | [] => EmptyString
  | [x] => x
  | x :: rest => x +:+ sep +:+ join sep rest
  end.

(** Truthiness of a string: every string but the empty one. *)
Definition truthy_string (s : string) : bool :=
  match s with
  | EmptyString => false
  | String _ _ => true
  end.

(** Truthiness of a number (integral values only). *)
Definition truthy_number (n : Z) : bool := negb (n =? 0).

(** Truthiness of a property that is either unset ([undefined], [None])
    or holds a value. *)
Definition truthy {A} (truthy_value : A -> bool) (o : option A) : bool :=
  match o with
  | Some a => truthy_value a
  | None => false
  end.

(** [x == n] for a property [x] that is unset or a number, and a number
    [n]: [undefined == n] is false. *)
Definition loose_eq_number (x : option Z) (n : Z) : bool :=
  match x with
  | Some m => m =? n
  | None => false
  end.

(** The string that [+] concatenates for an operand that is unset or a
    string. *)
Definition ToString (o : option string) : string :=
  match o with
  | Some s => s
  | None => "undefined"
  end.

(** The line feed that the escape [\n] denotes. *)
Definition LF : string := String (ascii_of_nat 10) EmptyString.

(** [ToInt32] and the operator [&] on integral numbers. *)
Definition ToInt32 (n : Z) : Z := (n + 2 ^ 31) mod 2 ^ 32 - 2 ^ 31.

Definition bitand (x y : Z) : Z := Z.land (ToInt32 x) (ToInt32 y).

(** The exceptions that the code of this file can raise: the two failures
    of [goog.asserts] (each with the message it was given), and the
    [TypeError] of reading a property of something that is not an object. *)
Inductive Exception : Type :=
| AssertionFailed (opt_message : option string)
| Failure (opt_message : option string)
| TypeError.

(** Outcome of a call that may throw. *)
Inductive Result (A : Type) : Type :=
| Ok (a : A)
| Throw (e : Exception).
Arguments Ok {A} a.
Arguments Throw {A} e.

#[global] Instance Result_ret : MRet Result := fun A a => Ok a.

#[global] Instance Result_bind : MBind Result := fun A B k r =>
  match r with
  | Ok a => k a
  | Throw e => Throw e
  end.

Definition is_Ok {A} (r : Result A) : bool :=
  match r with
  | Ok _ => true
  | Throw _ => false
  end.

(** [array.forEach(f)] for a callback that updates a captured variable of
    type [S] and may throw: the first exception ends the iteration. *)
Fixpoint forEach {S A} (f : S -> A -> Result S) (array : list A) (s : S)
  : Result S :=
  match array with
  | [] => Ok s
  | a :: rest =>
      match f s a with
      | Ok s' => forEach f rest s'
      | Throw e => Throw e
      end
  end.

End JS.
Export JS (Exception(..), Result(..), Result_ret, Result_bind).

(** ** Assertions of the Closure library

    [goog.asserts] with assertions enabled (its default): a failed assertion
    throws, and the exception propagates through every caller in this
    file. *)

Module goog.

(** [goog.asserts.assert(condition, opt_message)]. *)
Definition assert (condition : bool) (opt_message : option string)
  : Result unit :=
  if condition then Ok tt else Throw (AssertionFailed opt_message).

(** [goog.asserts.fail(opt_message)]. *)
Definition fail {A} (opt_message : option string) : Result A :=
  Throw (Failure opt_message).

End goog.
Export goog.

(** ** Blockly.ComputerCraft *)

Module ComputerCraft.

Definition BASE_HELP_URL : string := "http://computercraft.info/wiki/".

Module StmtConns.
Definition NONE : Z := 0.
Definition PREVIOUS : Z := 1.
Definition NEXT : Z := 2.
Definition BOTH : Z := 3.
End StmtConns.

Module HelpUrlType.
Definition PREFIX_NAME : Z := 1.
Definition PREFIX_DD : Z := 2.
End HelpUrlType.

(** [s.replace(LOWER_TO_UPPER_REGEX_, '$1_')] for the global regular
    expression [/([a-z])(?=[A-Z])/g]: a match is one lower-case letter that
    an upper-case letter follows (the lookahead consumes nothing), and each
    match is replaced by itself and an underscore. *)
Fixpoint replace_LOWER_TO_UPPER_REGEX_ (s : string) : string :=
  match s with
  | EmptyString => EmptyString
  | String c rest =>
      let lookahead :=
        match rest with
        | String d _ => JS.is_upper d
        | EmptyString => false
        end in
      if JS.is_lower c && lookahead
      then String c (String "_" (replace_LOWER_TO_UPPER_REGEX_ rest))
      else String c (replace_LOWER_TO_UPPER_REGEX_ rest)
  end.

Definition convertFromCamelCase (s : string) : string :=
  JS.toLowerCase (replace_LOWER_TO_UPPER_REGEX_ s).

(** References to [info] objects: the object handed to the constructor is
    shared with the block, not copied. *)
Definition loc : Type := positive.

(** What [info.output] holds when it is defined. *)
Inductive OutputCheck : Type :=
| output_null
| output_string (type : string)
| output_array (types : list string).

(** The fields of a block that this file reads or assigns.
    [outputConnection] belongs to the host framework, which assigns it in
    [setOutput]; [true] stands for a connection object. *)
Record Block : Type := mkBlock {
  prefix : string;
  colour : Z;
  info : loc;
  blockName : string;
  helpUrl : option string;
  multipleOutputs : option Z;
  outputConnection : bool
}.

(** [info.tooltip]: text, or a function from the block to text. *)
Inductive Tooltip : Type :=
| tooltip_string (text : string)
| tooltip_function (f : Block -> string).

Module Info.
Record t : Type := mk {
  blockName : option string;
  funcName : option string;
  output : option OutputCheck;
  stmtConns : option Z;
  multipleOutputs : option Z;
  tooltip : option Tooltip;
  helpUrl : option string;
  helpUrlType : option Z
}.

Definition set_stmtConns (v : option Z) (i : t) : t :=
  mk (blockName i) (funcName i) (output i) v (multipleOutputs i)
     (tooltip i) (helpUrl i) (helpUrlType i).
End Info.

(** [name] is [info.blockName] unless that is falsy, and then the converted
    [info.funcName]; in both cases it is a string when it is used. *)
Definition getBlockName_ (prefix : string) (info : Info.t) : Result string :=
  let name := Info.blockName info in
  name ←
    (if negb (JS.truthy JS.truthy_string name) then
       assert (JS.truthy JS.truthy_string (Info.funcName info))
              (Some "info.funcName not defined");;
       mret (convertFromCamelCase (JS.ToString (Info.funcName info)))
     else mret (JS.ToString name));
  mret (prefix +:+ "_" +:+ name).

(** *** The host framework as seen from a block

    The methods that a block inherits from [Blockly.Block] are not part of
    this file.  A call of a setter is recorded with its arguments, in the
    order of the calls. *)

(** The argument of [setTooltip]: a string, or the closure that [init]
    builds around [info.tooltip]. *)
Inductive TooltipArg : Type :=
| tooltip_text (text : string)
| tooltip_closure.

Inductive HostCall : Type :=
| setColour (hue : Z)
| setInputsInline (newBoolean : bool)
| setTooltip (newTip : TooltipArg)
| setPreviousStatement (newBoolean : bool)
| setNextStatement (newBoolean : bool)
| setOutput (newBoolean : bool) (opt_check : option OutputCheck).

(** The objects that [init] works on: the [info] objects by reference, the
    block itself, and the calls made to the host so far. *)
Record State : Type := mkState {
  heap : gmap loc Info.t;
  this : Block;
  calls : list HostCall
}.

(** Statements of a method of the block: they read and update the state
    and may throw. *)
Definition M (A : Type) : Type := State -> Result (A * State).

#[global] Instance M_ret : MRet M := fun A a st => Ok (a, st).

#[global] Instance M_bind : MBind M := fun A B k m st =>
  match m st with
  | Ok (a, st') => k a st'
  | Throw e => Throw e
  end.

Definition when (condition : bool) (body : M unit) : M unit :=
  if condition then body else mret tt.

Definition get_this : M Block := fun st => Ok (this st, st).

(** A call [this.setX(...)] of a host method.  Only the call is recorded:
    what the setter does to the block is the host's ([setOutput] creates
    the [outputConnection] that [generateLua] reads), and is not part of
    [init] as modelled here, which therefore speaks of the calls that
    [init] makes and of the assignments that are written in [init]
    itself. *)
Definition call (c : HostCall) : M unit := fun st =>
  Ok (tt, mkState (heap st) (this st) (calls st ++ [c])).

(** [this.info], dereferenced. *)
Definition this_info : M Info.t := fun st =>
  match heap st !! info (this st) with
  | Some i => Ok (i, st)
  | None => Throw TypeError
  end.

(** [this.info.stmtConns = v]: an update of the shared object. *)
Definition set_this_info_stmtConns (v : Z) : M unit := fun st =>
  match heap st !! info (this st) with
  | Some i =>
      Ok (tt, mkState (<[info (this st) := Info.set_stmtConns (Some v) i]>
                         (heap st))
                      (this st) (calls st))
  | None => Throw TypeError
  end.

(** [this.helpUrl = v]. *)
Definition set_this_helpUrl (v : string) : M unit := fun st =>
  let b := this st in
  Ok (tt, mkState (heap st)
            (mkBlock (prefix b) (colour b) (info b) (blockName b) (Some v)
                     (multipleOutputs b) (outputConnection b))
            (calls st)).

(** [this.multipleOutputs = v]. *)
Definition set_this_multipleOutputs (v : option Z) : M unit := fun st =>
  let b := this st in
  Ok (tt, mkState (heap st)
            (mkBlock (prefix b) (colour b) (info b) (blockName b) (helpUrl b)
                     v (outputConnection b))
            (calls st)).

(** [!x] for [x = info.output]: [undefined], [null] and the empty string
    are falsy, an array is not. *)
Definition truthy_output (o : option OutputCheck) : bool :=
  match o with
  | None | Some output_null => false
  | Some (output_string s) => JS.truthy_string s
  | Some (output_array _) => true
  end.

(** The number that [&] sees in an operand that is unset or a number. *)
Definition ToNumber_bits (x : option Z) : Z :=
  match x with
  | Some n => n
  | None => 0
  end.

(** *** The class Blockly.ComputerCraft.Block *)

(** [new Blockly.ComputerCraft.Block(prefix, colour, info)], on the heap
    that holds the [info] object.  The object describes a block type; the
    methods below run on a block of the host that carries these fields
    besides the methods of [Blockly.Block]. *)
Definition new_Block (h : gmap loc Info.t)
    (prefix : string) (colour : Z) (info : loc) : Result Block :=
  match h !! info with
  | Some i =>
      name ← getBlockName_ prefix i;
      mret (mkBlock prefix colour info name None None false)
  | None => Throw TypeError
  end.

Definition init : M unit :=
  this ← get_this;
  call (setColour (colour this));;
  call (setInputsInline true);;
  i ← this_info;
  when (JS.loose_eq_number (Info.helpUrlType i) HelpUrlType.PREFIX_NAME)
    (set_this_helpUrl
       (BASE_HELP_URL +:+
        JS.toUpperCase (JS.charAt (prefix this) 0) +:+
        JS.slice (prefix this) 1 +:+ "." +:+ JS.ToString (Info.funcName i)));;
  i ← this_info;
  match Info.tooltip i with
  | Some (tooltip_function _) => call (setTooltip tooltip_closure)
  | Some (tooltip_string text) =>
      when (JS.truthy_string text) (call (setTooltip (tooltip_text text)))
  | None => mret tt
  end;;
  i ← this_info;
  when (negb (JS.truthy JS.truthy_number (Info.multipleOutputs i)) &&
        negb (bool_decide (is_Some (Info.output i))) &&
        negb (JS.loose_eq_number (Info.stmtConns i) StmtConns.NONE))
    (set_this_info_stmtConns StmtConns.BOTH);;
  i ← this_info;
  when (JS.truthy JS.truthy_number (Info.stmtConns i))
    (call (setPreviousStatement
             (negb (JS.bitand (ToNumber_bits (Info.stmtConns i))
                              StmtConns.PREVIOUS =? 0)));;
     call (setNextStatement
             (negb (JS.bitand (ToNumber_bits (Info.stmtConns i))
                              StmtConns.NEXT =? 0))));;
  when (bool_decide (is_Some (Info.output i)))
    (call (setOutput true (Info.output i)));;
  when (JS.truthy JS.truthy_number (Info.multipleOutputs i))
    (set_this_multipleOutputs (Info.multipleOutputs i);;
     when (negb (truthy_output (Info.output i)))
       (call (setOutput true None))).

(** What the closure that [init] hands to [setTooltip] returns when the
    host invokes it in state [st]: [thisBlock.info.tooltip(thisBlock)]. *)
Definition tooltip_closure_apply (st : State) : Result string :=
  match heap st !! info (this st) with
  | Some i =>
      match Info.tooltip i with
      | Some (tooltip_function f) => Ok (f (this st))
      | _ => Throw TypeError
      end
  | None => Throw TypeError
  end.

(** *** Code generation *)

(** An input of a block, as [getInput] returns it. *)
Module Input.
Record t : Type := mk {
  type : Z;
  name : string
}.
End Input.

(** A title of a block, as [getTitle_] returns it: a dropdown menu with its
    selected value, or a field of another class. *)
Inductive Field : Type :=
| FieldDropdown (value : string)
| FieldLabel (text : string)
| FieldTextInput (text : string).

(** [title instanceof Blockly.FieldDropdown]. *)
Definition instanceof_FieldDropdown (title : Field) : bool :=
  match title with
  | FieldDropdown _ => true
  | _ => false
  end.

(** What [Blockly] and [Blockly.Lua] supply: constants, the lookup of inputs
    and titles of a block by name, and the generator of the code of the
    block plugged into a value input. *)
Class Framework : Type := {
  INPUT_VALUE : Z;
  ORDER_NONE : Z;
  ORDER_HIGH : Z;
  getInput : Block -> string -> option Input.t;
  getTitle_ : Block -> string -> option Field;
  valueToCode : Block -> string -> Z -> string
}.

(** What a block type built on this class supplies: the two methods that
    the base class lacks, and possibly its own [generateDropdownCode], whose
    result is a string or nothing ([None], a falsy [undefined]). *)
Class Subclass : Type := {
  getOrderedParameterNames : Block -> list string;
  getFuncName : Block -> string;
  override_generateDropdownCode :
    option (Block -> Field -> Result (option string))
}.

(** The result of [generateLua]: a string, or the array of a string and an
    order. *)
Inductive LuaCode : Type :=
| code_string (code : string)
| code_array (code : string) (order : Z).

(** [Blockly.ComputerCraft.Block.prototype.generateDropdownCode]. *)
Definition generateDropdownCode (thisBlock : Block) (field : Field)
  : Result (option string) :=
  fail (Some "generateDropdownCode() must be overridden.").

Section CodeGeneration.
Context {framework : Framework} {subclass : Subclass}.

(** [thisBlock.generateDropdownCode]: the method of the subclass when it
    defines one, the inherited one otherwise. *)
Definition this_generateDropdownCode
  : Block -> Field -> Result (option string) :=
  match override_generateDropdownCode with
  | Some method => method
  | None => generateDropdownCode
  end.

(** The callback of [forEach] in [generateLuaInner_]; [inputsCode] is the
    array it pushes to. *)
Definition generateLuaInner__callback (thisBlock : Block)
    (inputsCode : list string) (name : string) : Result (list string) :=
  let input := getInput thisBlock name in
  match input with
  | Some input =>
      assert (Input.type input =? INPUT_VALUE) None;;
      mret (inputsCode ++
            [valueToCode thisBlock (Input.name input) ORDER_NONE])
  | None =>
      let title := getTitle_ thisBlock name in
      match title with
      | None =>
          (* [title] is null: the assertion on it fails *)
          assert false
                 (Some ("Unable to find input or title named " +:+ name));;
          Throw TypeError
      | Some title =>
          assert (instanceof_FieldDropdown title)
                 (Some "Only value inputs and dropdowns are currently supported.");;
          result ← this_generateDropdownCode thisBlock title;
          mret (if JS.truthy JS.truthy_string result
                then inputsCode ++ [JS.ToString result]
                else inputsCode)
      end
  end.

Definition generateLuaInner_ (this : Block) : Result string :=
  inputsCode ←
    JS.forEach (generateLuaInner__callback this)
               (getOrderedParameterNames this) [];
  mret (getFuncName this +:+ "(" +:+ JS.join ", " inputsCode +:+ ")").

Definition generateLua (this : Block) : Result LuaCode :=
  code ← generateLuaInner_ this;
  if outputConnection this
  then mret (code_array code ORDER_HIGH)
  else mret (code_string (code +:+ JS.LF)).

End CodeGeneration.

(** [Blockly.ComputerCraft.Block.disallowArgTitle_(args, regex)].  [args]
    is null ([None]) or an array of pairs of a name and some description of
    the argument, of which only the name is read.  [regex] is given by
    whether [regex.exec] finds a match in a string: this is a regular
    expression without the flags [g] and [y], whose [exec] does not depend
    on earlier calls. *)
Definition disallowArgTitle_ {D : Type} (args : option (list (string * D)))
    (regex : string -> bool) : Result unit :=
  match args with
  | Some args =>
      JS.forEach
        (fun (_ : unit) (arg : string * D) =>
           assert (negb (regex arg.1))
                  (Some ("Illegal argument name " +:+ arg.1)))
        args tt
  | None => mret tt
  end.

End ComputerCraft.

Import ComputerCraft.

(** ** The specification's vocabulary *)

Module Spec.

(** A string of ASCII letters only. *)
Fixpoint only_letters (s : string) : bool :=
  match s with
  | EmptyString => true
  | String c rest => (JS.is_lower c || JS.is_upper c) && only_letters rest
  end.

(** The maximal runs of a string, each with its kind: [true] for a run of
    upper-case letters, [false] for a run of other characters. *)
Fixpoint runs (s : string) : list (bool * string) :=
  match s with
  | EmptyString => []
  | String c rest =>
      match runs rest with
      | (kind, run) :: others =>
          if Bool.eqb kind (JS.is_upper c)
          then (kind, String c run) :: others
          else (JS.is_upper c, String c EmptyString) :: (kind, run) :: others
      | [] => [(JS.is_upper c, String c EmptyString)]
      end
  end.

(** Every run is not empty, its characters are of its kind, and the run
    after it, if any, is of the other kind. *)
Fixpoint runs_wf (rs : list (bool * string)) : Prop :=
  match rs with
  | [] => True
  | (kind, run) :: others =>
      run <> "" /\
      (forall n c, String.get n run = Some c -> JS.is_upper c = kind) /\
      match others with
      | (kind', _) :: _ => kind' = negb kind
      | [] => True
      end /\
      runs_wf others
  end.

(** The last character of [run], or [preceding] when [run] is empty. *)
Fixpoint last_char (run : string) (preceding : option ascii) : option ascii :=
  match run with
  | EmptyString => preceding
  | String c rest => last_char rest (Some c)
  end.

Definition is_lower_letter (preceding : option ascii) : bool :=
  match preceding with
  | Some c => JS.is_lower c
  | None => false
  end.

(** The runs written out again, with one underscore before every run of
    upper-case letters that a lower-case letter precedes. *)
Fixpoint underscore_before_upper_runs (preceding : option ascii)
    (rs : list (bool * string)) : string :=
  match rs with
  | [] => EmptyString
  | (kind, run) :: others =>
      (if kind && is_lower_letter preceding then "_" else "") +:+
      run +:+ underscore_before_upper_runs (last_char run preceding) others
  end.

(** [convertFromMixedCase] as the specification words it: insert the
    underscores, then lower-case the whole string. *)
Definition convertFromMixedCase (s : string) : string :=
  JS.toLowerCase (underscore_before_upper_runs None (runs s)).

(** A string of lower-case letters and underscores. *)
Fixpoint lower_case_or_underscore (s : string) : bool :=
  match s with
  | EmptyString => true
  | String c rest =>
      (JS.is_lower c || Ascii.eqb c "_") && lower_case_or_underscore rest
  end.

(** The next character, if any, is an upper-case letter: the lookahead of
    the regular expression. *)
Definition starts_upper (s : string) : bool :=
  match s with
  | String d _ => JS.is_upper d
  | EmptyString => false
  end.

(** The [info] object without its [blockName]. *)
Definition without_blockName (i : Info.t) : Info.t :=
  Info.mk None (Info.funcName i) (Info.output i) (Info.stmtConns i)
          (Info.multipleOutputs i) (Info.tooltip i) (Info.helpUrl i)
          (Info.helpUrlType i).

(** The calls that attach or remove a statement connector. *)
Definition is_statement_call (c : HostCall) : bool :=
  match c with
  | setPreviousStatement _ | setNextStatement _ => true
  | _ => false
  end.

Definition statement_calls (cs : list HostCall) : list HostCall :=
  List.filter is_statement_call cs.

(** Connector defaulting applies: no additional outputs, no output, and
    statement connections not [NONE]. *)
Definition connector_defaulting (i : Info.t) : bool :=
  negb (JS.truthy JS.truthy_number (Info.multipleOutputs i)) &&
  match Info.output i with None => true | Some _ => false end &&
  match Info.stmtConns i with
  | Some n => negb (n =? StmtConns.NONE)
  | None => true
  end.

(** [info.stmtConns] once [init] has run. *)
Definition final_stmtConns (i : Info.t) : option Z :=
  if connector_defaulting i then Some StmtConns.BOTH else Info.stmtConns i.

(** The heap once [init] has run on a block whose [info] is [i], at [l]. *)
Definition init_heap (h : gmap loc Info.t) (l : loc) (i : Info.t)
  : gmap loc Info.t :=
  if connector_defaulting i
  then <[l := Info.set_stmtConns (Some StmtConns.BOTH) i]> h
  else h.

(** The block once [init] has run. *)
Definition init_this (b : Block) (i : Info.t) : Block :=
  mkBlock (prefix b) (colour b) (info b) (blockName b)
    (if JS.loose_eq_number (Info.helpUrlType i) HelpUrlType.PREFIX_NAME
     then Some (BASE_HELP_URL +:+
                JS.toUpperCase (JS.charAt (prefix b) 0) +:+
                JS.slice (prefix b) 1 +:+ "." +:+
                JS.ToString (Info.funcName i))
     else helpUrl b)
    (if JS.truthy JS.truthy_number (Info.multipleOutputs i)
     then Info.multipleOutputs i
     else multipleOutputs b)
    (outputConnection b).

(** The calls that [init] makes, by the part of [info] that decides them. *)
Definition tooltip_calls (i : Info.t) : list HostCall :=
  match Info.tooltip i with
  | Some (tooltip_function _) => [setTooltip tooltip_closure]
  | Some (tooltip_string text) =>
      if JS.truthy_string text then [setTooltip (tooltip_text text)] else []
  | None => []
  end.

Definition connector_calls (i : Info.t) : list HostCall :=
  if JS.truthy JS.truthy_number (final_stmtConns i)
  then [setPreviousStatement
          (negb (JS.bitand (ToNumber_bits (final_stmtConns i))
                           StmtConns.PREVIOUS =? 0));
        setNextStatement
          (negb (JS.bitand (ToNumber_bits (final_stmtConns i))
                           StmtConns.NEXT =? 0))]
  else [].

Definition output_calls (i : Info.t) : list HostCall :=
  (if bool_decide (is_Some (Info.output i))
   then [setOutput true (Info.output i)]
   else []) ++
  (if JS.truthy JS.truthy_number (Info.multipleOutputs i) &&
      negb (truthy_output (Info.output i))
   then [setOutput true None]
   else []).

Definition init_calls (b : Block) (i : Info.t) : list HostCall :=
  [setColour (colour b); setInputsInline true] ++
  tooltip_calls i ++ connector_calls i ++ output_calls i.

(** The result of [generateLua] is the array of code and order. *)
Definition is_code_array (r : LuaCode) : bool :=
  match r with
  | code_array _ _ => true
  | code_string _ => false
  end.

(** A string of ASCII characters (codes below 128), on which
    [JS.toLowerCase], [JS.toUpperCase], [JS.charAt] and [JS.slice] are the
    methods of JavaScript. *)
Fixpoint is_ascii (s : string) : bool :=
  match s with
  | EmptyString => true
  | String c rest => Nat.ltb (nat_of_ascii c) 128 && is_ascii rest
  end.

(** A string without upper-case letters. *)
Fixpoint no_upper (s : string) : bool :=
  match s with
  | EmptyString => true
  | String c rest => negb (JS.is_upper c) && no_upper rest
  end.

(** The string without its underscores. *)
Fixpoint strip_underscores (s : string) : string :=
  match s with
  | EmptyString => EmptyString
  | String c rest =>
      if Ascii.eqb c "_" then strip_underscores rest
      else String c (strip_underscores rest)
  end.

(** The next character, if any, is a lower-case letter. *)
Definition starts_lower (s : string) : bool :=
  match s with
  | String d _ => JS.is_lower d
  | EmptyString => false
  end.

(** Every underscore of the string stands between two lower-case letters;
    [after_letter] says whether a lower-case letter precedes the string. *)
Fixpoint underscores_between_letters (after_letter : bool) (s : string)
  : bool :=
  match s with
  | EmptyString => true
  | String c rest =>
      if Ascii.eqb c "_"
      then after_letter && starts_lower rest &&
           underscores_between_letters false rest
      else underscores_between_letters (JS.is_lower c) rest
  end.

(** The prefix with its first character in upper case. *)
Definition capitalize (s : string) : string :=
  match s with
  | EmptyString => EmptyString
  | String c rest => String (JS.char_toUpperCase c) rest
  end.

Definition is_tooltip_call (c : HostCall) : bool :=
  match c with
  | setTooltip _ => true
  | _ => false
  end.

Definition is_output_call (c : HostCall) : bool :=
  match c with
  | setOutput _ _ => true
  | _ => false
  end.

(** The calls on the colour and the layout of a block. *)
Definition is_style_call (c : HostCall) : bool :=
  match c with
  | setColour _ | setInputsInline _ => true
  | _ => false
  end.

(** The calls on the connectors of a block, and those that attach one. *)
Definition is_connector_call (c : HostCall) : bool :=
  is_statement_call c || is_output_call c.

Definition attaches_connector (c : HostCall) : bool :=
  match c with
  | setPreviousStatement true | setNextStatement true | setOutput true _ =>
      true
  | _ => false
  end.

(** The [info] object asks for no connector at all: no output, no
    additional outputs, and statement connections [NONE]. *)
Definition no_connector_requested (i : Info.t) : bool :=
  negb (JS.truthy JS.truthy_number (Info.multipleOutputs i)) &&
  match Info.output i with None => true | Some _ => false end &&
  match Info.stmtConns i with
  | Some n => n =? StmtConns.NONE
  | None => false
  end.

Section Parameters.
Context {framework : Framework} {subclass : Subclass}.

(** The parameter [name] of block [b] resolves to a value input or to a
    dropdown title. *)
Definition resolves (b : Block) (name : string) : bool :=
  match getInput b name with
  | Some input => Input.type input =? INPUT_VALUE
  | None =>
      match getTitle_ b name with
      | Some (FieldDropdown _) => true
      | _ => false
      end
  end.

(** The dropdown hook returns on the title that [name] denotes, if it
    denotes one. *)
Definition hook_returns (b : Block) (name : string) : bool :=
  match getInput b name with
  | Some _ => true
  | None =>
      match getTitle_ b name with
      | Some title => JS.is_Ok (this_generateDropdownCode b title)
      | None => true
      end
  end.

(** The assertion of [generateLuaInner_] that fails on a parameter that
    does not resolve. *)
Definition resolution_failure (b : Block) (name : string) : Exception :=
  match getInput b name with
  | Some _ => AssertionFailed None
  | None =>
      match getTitle_ b name with
      | Some _ =>
          AssertionFailed
            (Some "Only value inputs and dropdowns are currently supported.")
      | None =>
          AssertionFailed
            (Some ("Unable to find input or title named " +:+ name))
      end
  end.

(** The parameter [name] of block [b] is a value input. *)
Definition value_input (b : Block) (name : string) : bool :=
  match getInput b name with
  | Some input => Input.type input =? INPUT_VALUE
  | None => false
  end.

(** The parameter resolves and the hook returns on it. *)
Definition parameter_ok (b : Block) (name : string) : bool :=
  resolves b name && hook_returns b name.

(** The fragments that the parameter [name] contributes to the argument
    list: the code of a value input; for a dropdown title the fragment of
    the hook, or nothing when it is empty or missing. *)
Definition fragments (b : Block) (name : string) : list string :=
  match getInput b name with
  | Some input => [valueToCode b (Input.name input) ORDER_NONE]
  | None =>
      match getTitle_ b name with
      | Some title =>
          match this_generateDropdownCode b title with
          | Ok (Some fragment) =>
              if JS.truthy_string fragment then [fragment] else []
          | _ => []
          end
      | None => []
      end
  end.

End Parameters.

End Spec.

(** ** Sample blocks *)

Module Sample.

Definition turn_left : Info.t :=
  Info.mk None (Some "turnLeft") None None None None None None.

Definition custom : Info.t :=
  Info.mk (Some "custom") None None None None None None None.

Definition empty_blockName : Info.t :=
  Info.mk (Some "") (Some "turnLeft") None None None None None None.

Definition no_connectors : Info.t :=
  Info.mk None (Some "turnLeft") None (Some StmtConns.NONE) None None None
          None.

Definition with_helpUrl : Info.t :=
  Info.mk None (Some "forward") None None None None
          (Some "http://example.com/forward")
          (Some HelpUrlType.PREFIX_NAME).

Definition derived_helpUrl : Info.t :=
  Info.mk None (Some "forward") None None None None None
          (Some HelpUrlType.PREFIX_NAME).

(** A value block that also asks for a previous statement connector. *)
Definition detect : Info.t :=
  Info.mk None (Some "detect") (Some (output_string "Boolean"))
          (Some StmtConns.PREVIOUS) None None None None.

(** A block with several outputs of any type and a computed tooltip. *)
Definition pull_event : Info.t :=
  Info.mk None (Some "pullEvent") (Some output_null) None (Some 5)
          (Some (tooltip_function (fun b => "Wait for " +:+ blockName b)))
          None None.

Definition block : Block :=
  mkBlock "turtle" 120 1%positive "turtle_turn_left" None None false.

Definition value_block : Block :=
  mkBlock "turtle" 120 1%positive "turtle_detect" None None true.

(** A state in which the block has not been initialised yet and its [info]
    is [i]. *)
Definition fresh (i : Info.t) : State :=
  mkState {[ 1%positive := i ]} block [].

(** A block with a value input [DISTANCE], a statement input [BODY], two
    dropdown titles [DIR] and [SIDE] and a label [LABEL]. *)
#[local] Instance framework : Framework := {|
  INPUT_VALUE := 1;
  ORDER_NONE := 99;
  ORDER_HIGH := 1;
  getInput := fun _ name =>
    if String.eqb name "DISTANCE" then Some (Input.mk 1 "DISTANCE")
    else if String.eqb name "BODY" then Some (Input.mk 3 "BODY")
    else None;
  getTitle_ := fun _ name =>
    if String.eqb name "DIR" then Some (FieldDropdown "forward")
    else if String.eqb name "SIDE" then Some (FieldDropdown "")
    else if String.eqb name "LABEL" then Some (FieldLabel "move")
    else None;
  valueToCode := fun _ name _ => if String.eqb name "DISTANCE" then "n + 1"
                                 else ""
|}.

(** A block type whose dropdown hook quotes the selected value and gives
    nothing for an empty selection. *)
Definition quoting (names : list string) : Subclass := {|
  getOrderedParameterNames := fun _ => names;
  getFuncName := fun _ => "turtle.move";
  override_generateDropdownCode := Some (fun _ field =>
    match field with
    | FieldDropdown value =>
        Ok (if JS.truthy_string value then Some ("'" +:+ value +:+ "'")
            else None)
    | _ => Ok None
    end)
|}.

(** A block type that inherits the hook of the base class. *)
Definition inheriting (names : list string) : Subclass := {|
  getOrderedParameterNames := fun _ => names;
  getFuncName := fun _ => "turtle.move";
  override_generateDropdownCode := None
|}.

End Sample.

(** ** Characters and strings *)

Lemma is_upper_not_lower c : JS.is_upper c = true -> JS.is_lower c = false.
Proof.
  unfold JS.is_upper, JS.is_lower.
  destruct (Nat.leb_spec 65 (nat_of_ascii c)),
    (Nat.leb_spec (nat_of_ascii c) 90),
    (Nat.leb_spec 97 (nat_of_ascii c)),
    (Nat.leb_spec (nat_of_ascii c) 122);
    simpl; intros; try reflexivity; try discriminate; lia.
Qed.

Lemma char_toLowerCase_upper c :
  JS.is_upper c = true -> JS.is_lower (JS.char_toLowerCase c) = true.
Proof.
  intros Hup. unfold JS.char_toLowerCase. rewrite Hup.
  unfold JS.is_upper in Hup. apply andb_prop in Hup as [H1 H2].
  apply Nat.leb_le in H1, H2.
  unfold JS.is_lower. rewrite nat_ascii_embedding by lia.
  apply andb_true_intro; split; apply Nat.leb_le; lia.
Qed.

Lemma char_toLowerCase_not_upper c :
  JS.is_upper c = false -> JS.char_toLowerCase c = c.
Proof. intros H. unfold JS.char_toLowerCase. now rewrite H. Qed.

Lemma append_cons c s1 s2 : String c s1 +:+ s2 = String c (s1 +:+ s2).
Proof. reflexivity. Qed.

Lemma toLowerCase_app s1 s2 :
  JS.toLowerCase (s1 +:+ s2) = JS.toLowerCase s1 +:+ JS.toLowerCase s2.
Proof.
  induction s1 as [|c s1 IH]; [reflexivity|].
  change (String (JS.char_toLowerCase c) (JS.toLowerCase (s1 +:+ s2)) =
          String (JS.char_toLowerCase c)
                 (JS.toLowerCase s1 +:+ JS.toLowerCase s2)).
  now rewrite IH.
Qed.

Lemma truthy_string_true s : JS.truthy_string s = true <-> s <> "".
Proof. destruct s; simpl; split; congruence. Qed.

(** ** convertFromCamelCase *)

Lemma replace_LOWER_TO_UPPER_REGEX__cons c rest :
  replace_LOWER_TO_UPPER_REGEX_ (String c rest) =
  String c ((if JS.is_lower c && Spec.starts_upper rest then "_" else "") +:+
            replace_LOWER_TO_UPPER_REGEX_ rest).
Proof.
  cbn [replace_LOWER_TO_UPPER_REGEX_].
  change (match rest with
          | String d _ => JS.is_upper d
          | EmptyString => false
          end) with (Spec.starts_upper rest).
  now destruct (JS.is_lower c && Spec.starts_upper rest).
Qed.

(** Writing the runs out again gives the string back. *)
Lemma runs_concat s :
  foldr (fun r acc => r.2 +:+ acc) "" (Spec.runs s) = s.
Proof.
  induction s as [|c rest IH]; [reflexivity|].
  cbn [Spec.runs].
  destruct (Spec.runs rest) as [|[kind run] others].
  - cbn in IH |- *. now subst rest.
  - destruct (Bool.eqb kind (JS.is_upper c)); cbn in IH |- *;
      rewrite append_cons; now rewrite IH.
Qed.

Lemma runs_maximal s : Spec.runs_wf (Spec.runs s).
Proof.
  induction s as [|c rest IH]; [exact I|].
  cbn [Spec.runs].
  destruct (Spec.runs rest) as [|[kind run] others].
  - cbn. repeat split; [discriminate|].
    intros [|n] d; cbn; [congruence | destruct n; discriminate].
  - destruct IH as (Hne & Hkind & Hnext & Hwf).
    destruct (Bool.eqb kind (JS.is_upper c)) eqn:E.
    + apply Bool.eqb_prop in E.
      cbn. repeat split; [discriminate | | exact Hnext | exact Hwf].
      intros [|n] d; cbn; [congruence | apply Hkind].
    + apply Bool.eqb_false_iff in E.
      cbn. repeat split; try assumption; [discriminate | |].
      * intros [|n] d; cbn; [congruence | destruct n; discriminate].
      * destruct kind, (JS.is_upper c); cbn; congruence.
Qed.

(** The replacement by the regular expression is the insertion of an
    underscore before the runs of upper-case letters that follow a lower-case
    letter; [preceding] is the character before the string. *)
Lemma underscore_runs_replace s : forall preceding,
  Spec.underscore_before_upper_runs preceding (Spec.runs s) =
  (if Spec.starts_upper s && Spec.is_lower_letter preceding then "_" else "") +:+
  replace_LOWER_TO_UPPER_REGEX_ s.
Proof.
  induction s as [|c rest IH]; intros preceding; [reflexivity|].
  rewrite replace_LOWER_TO_UPPER_REGEX__cons.
  specialize (IH (Some c)). cbn [Spec.is_lower_letter] in IH.
  rewrite (andb_comm (Spec.starts_upper rest)) in IH. rewrite <- IH.
  cbn [Spec.runs Spec.starts_upper].
  destruct (Spec.runs rest) as [|[kind run] others].
  - reflexivity.
  - destruct (Bool.eqb kind (JS.is_upper c)) eqn:Hkind; [|reflexivity].
    apply Bool.eqb_prop in Hkind. subst kind.
    cbn [Spec.underscore_before_upper_runs Spec.last_char
         Spec.is_lower_letter].
    destruct (JS.is_upper c) eqn:Hup; [|reflexivity].
    rewrite (is_upper_not_lower c Hup).
    now destruct (Spec.is_lower_letter preceding).
Qed.

Lemma convertFromCamelCase_refines s :
  convertFromCamelCase s = Spec.convertFromMixedCase s.
Proof.
  unfold convertFromCamelCase, Spec.convertFromMixedCase.
  rewrite underscore_runs_replace.
  now rewrite andb_false_r.
Qed.

Lemma convertFromCamelCase_lower_case s :
  Spec.only_letters s = true ->
  Spec.lower_case_or_underscore (convertFromCamelCase s) = true.
Proof.
  unfold convertFromCamelCase.
  induction s as [|c rest IH]; [reflexivity|].
  cbn [Spec.only_letters]. intros [Hc Hrest]%andb_prop.
  rewrite replace_LOWER_TO_UPPER_REGEX__cons.
  cbn [JS.toLowerCase Spec.lower_case_or_underscore].
  rewrite toLowerCase_app.
  assert (JS.is_lower (JS.char_toLowerCase c) = true) as ->.
  { destruct (JS.is_upper c) eqn:Hup.
    - now apply char_toLowerCase_upper.
    - rewrite char_toLowerCase_not_upper by assumption.
      now rewrite orb_false_r in Hc. }
  destruct (JS.is_lower c && Spec.starts_upper rest); cbn; now apply IH.
Qed.

(** C2: on a string of ASCII letters only, [convertFromCamelCase] returns
    the string with a single underscore before each run of upper-case letters
    that a lower-case letter precedes (one underscore for the whole run, see
    [Spec.runs] and [runs_maximal]) and with every letter lower-cased, so the
    result consists of lower-case letters and underscores.  In particular
    "turn" gives "turn", "isPresent" gives "is_present", "getID" gives
    "get_id" and "lightGray" gives "light_gray". *)
Theorem convertFromCamelCase_underscores :
  (forall s, Spec.only_letters s = true ->
     convertFromCamelCase s = Spec.convertFromMixedCase s /\
     Spec.lower_case_or_underscore (convertFromCamelCase s) = true) /\
  convertFromCamelCase "turn" = "turn" /\
  convertFromCamelCase "isPresent" = "is_present" /\
  convertFromCamelCase "getID" = "get_id" /\
  convertFromCamelCase "lightGray" = "light_gray".
Proof.
  split; [|repeat split; reflexivity].
  intros s Hs. split.
  - apply convertFromCamelCase_refines.
  - now apply convertFromCamelCase_lower_case.
Qed.

Lemma convertFromCamelCase_underscores_witness :
  convertFromCamelCase "getHTTPCode" = Spec.convertFromMixedCase "getHTTPCode"
  /\ Spec.lower_case_or_underscore (convertFromCamelCase "getHTTPCode") = true.
Proof.
  apply (proj1 convertFromCamelCase_underscores "getHTTPCode"). reflexivity.
Defined.

(** ** getBlockName_ *)

Lemma convertFromCamelCase_not_empty s :
  s <> "" -> convertFromCamelCase s <> "".
Proof.
  destruct s as [|c rest]; [congruence|]. intros _.
  unfold convertFromCamelCase.
  rewrite replace_LOWER_TO_UPPER_REGEX__cons. discriminate.
Qed.

Lemma getBlockName__blockName prefix i name :
  Info.blockName i = Some name -> name <> "" ->
  getBlockName_ prefix i = Ok (prefix +:+ "_" +:+ name).
Proof.
  intros Hname Hne. unfold getBlockName_. rewrite Hname.
  destruct name; [congruence | reflexivity].
Qed.

(** Without a truthy [blockName], the name comes from [funcName]. *)
Lemma getBlockName__funcName prefix i f :
  JS.truthy JS.truthy_string (Info.blockName i) = false ->
  Info.funcName i = Some f -> f <> "" ->
  getBlockName_ prefix i = Ok (prefix +:+ "_" +:+ convertFromCamelCase f).
Proof.
  intros Hname Hf Hne. unfold getBlockName_. rewrite Hname, Hf.
  destruct f; [congruence | reflexivity].
Qed.

Lemma getBlockName__no_funcName prefix i :
  JS.truthy JS.truthy_string (Info.blockName i) = false ->
  Info.funcName i = None \/ Info.funcName i = Some "" ->
  getBlockName_ prefix i =
  Throw (AssertionFailed (Some "info.funcName not defined")).
Proof.
  intros Hname Hf. unfold getBlockName_. rewrite Hname.
  destruct Hf as [-> | ->]; reflexivity.
Qed.

(** C1, as stated, fails on a [blockName] that is present and empty: it is
    not used verbatim, the name comes from [funcName]. *)
Lemma getBlockName__blockName_not_verbatim :
  Info.blockName Sample.empty_blockName = Some "" /\
  getBlockName_ "turtle" Sample.empty_blockName = Ok "turtle_turn_left" /\
  getBlockName_ "turtle" Sample.empty_blockName <>
  Ok ("turtle" +:+ "_" +:+ "").
Proof. repeat split. discriminate. Qed.

(** C1 (amended): [getBlockName_ prefix info] returns [prefix], an
    underscore and a suffix, where the suffix is [info.blockName] verbatim
    when [blockName] is present and not empty, and is
    [convertFromCamelCase info.funcName] when [blockName] is absent and
    [funcName] is present and not empty; when [blockName] is absent and
    [funcName] is missing or empty, it fails with the assertion
    "info.funcName not defined".  In particular prefix "turtle" and
    [{funcName: "turnLeft"}] give "turtle_turn_left", and prefix "os" and
    [{blockName: "custom"}] give "os_custom". *)
Theorem getBlockName__derives :
  (forall prefix i,
     (forall name, Info.blockName i = Some name -> name <> "" ->
        getBlockName_ prefix i = Ok (prefix +:+ "_" +:+ name)) /\
     (forall f, Info.blockName i = None -> Info.funcName i = Some f ->
        f <> "" ->
        getBlockName_ prefix i =
        Ok (prefix +:+ "_" +:+ convertFromCamelCase f)) /\
     (Info.blockName i = None ->
      Info.funcName i = None \/ Info.funcName i = Some "" ->
      getBlockName_ prefix i =
      Throw (AssertionFailed (Some "info.funcName not defined")))) /\
  getBlockName_ "turtle" Sample.turn_left = Ok "turtle_turn_left" /\
  getBlockName_ "os" Sample.custom = Ok "os_custom".
Proof.
  split; [|split; reflexivity].
  intros prefix i. repeat split.
  - apply getBlockName__blockName.
  - intros f Hname. apply getBlockName__funcName. now rewrite Hname.
  - intros Hname. apply getBlockName__no_funcName. now rewrite Hname.
Qed.

Lemma getBlockName__derives_witness :
  getBlockName_ "peripheral" Sample.custom = Ok "peripheral_custom" /\
  getBlockName_ "peripheral" Sample.turn_left = Ok "peripheral_turn_left" /\
  getBlockName_ "peripheral" (Spec.without_blockName Sample.custom) =
  Throw (AssertionFailed (Some "info.funcName not defined")).
Proof.
  pose proof (proj1 getBlockName__derives "peripheral") as H.
  split; [|split].
  - apply (proj1 (H Sample.custom) "custom"); [reflexivity | discriminate].
  - apply (proj1 (proj2 (H Sample.turn_left)) "turnLeft");
      [reflexivity | reflexivity | discriminate].
  - apply (proj2 (proj2 (H (Spec.without_blockName Sample.custom))));
      [reflexivity | now left].
Defined.

(** C10: when [info.blockName] is present but is the empty string,
    [getBlockName_] does not use it verbatim: it behaves exactly as on the
    same [info] without [blockName], so the suffix is
    [convertFromCamelCase info.funcName] (and the result is not [prefix]
    followed by a bare underscore), and it fails with the assertion on
    [funcName] when [funcName] is absent or empty too. *)
Theorem getBlockName__empty_blockName prefix i :
  Info.blockName i = Some "" ->
  getBlockName_ prefix i = getBlockName_ prefix (Spec.without_blockName i) /\
  (forall f, Info.funcName i = Some f -> f <> "" ->
     getBlockName_ prefix i = Ok (prefix +:+ "_" +:+ convertFromCamelCase f)
     /\ getBlockName_ prefix i <> Ok (prefix +:+ "_" +:+ "")) /\
  (Info.funcName i = None \/ Info.funcName i = Some "" ->
   getBlockName_ prefix i =
   Throw (AssertionFailed (Some "info.funcName not defined"))).
Proof.
  intros Hname.
  assert (JS.truthy JS.truthy_string (Info.blockName i) = false) as Hfalsy
    by now rewrite Hname.
  repeat split.
  - unfold getBlockName_. now rewrite Hname.
  - now apply getBlockName__funcName.
  - rewrite (getBlockName__funcName prefix i f) by assumption.
    intros [= Heq]. apply String.app_inj in Heq.
    injection Heq as Heq. now apply (convertFromCamelCase_not_empty f).
  - now apply getBlockName__no_funcName.
Qed.

Lemma getBlockName__empty_blockName_witness :
  getBlockName_ "turtle" Sample.empty_blockName =
  getBlockName_ "turtle" (Spec.without_blockName Sample.empty_blockName) /\
  getBlockName_ "turtle" Sample.empty_blockName =
  Ok ("turtle" +:+ "_" +:+ convertFromCamelCase "turnLeft").
Proof.
  destruct (getBlockName__empty_blockName "turtle" Sample.empty_blockName)
    as (Hsame & Hfunc & _); [reflexivity|].
  split; [exact Hsame|].
  apply (Hfunc "turnLeft"); [reflexivity | discriminate].
Defined.

(** ** init *)

Lemma M_bind_run {A B} (m : M A) (k : A -> M B) st :
  (m ≫= k) st =
  match m st with
  | Ok (a, st') => k a st'
  | Throw e => Throw e
  end.
Proof. reflexivity. Qed.

Lemma this_info_run st i :
  heap st !! info (this st) = Some i -> this_info st = Ok (i, st).
Proof. intros H. unfold this_info. now rewrite H. Qed.

Lemma set_this_info_stmtConns_run st i v :
  heap st !! info (this st) = Some i ->
  set_this_info_stmtConns v st =
  Ok (tt, mkState (<[info (this st) := Info.set_stmtConns (Some v) i]>
                     (heap st))
                  (this st) (calls st)).
Proof. intros H. unfold set_this_info_stmtConns. now rewrite H. Qed.

(** The condition of the source and the one of the specification agree. *)
Lemma connector_defaulting_code i :
  negb (JS.truthy JS.truthy_number (Info.multipleOutputs i)) &&
  negb (bool_decide (is_Some (Info.output i))) &&
  negb (JS.loose_eq_number (Info.stmtConns i) StmtConns.NONE) =
  Spec.connector_defaulting i.
Proof.
  unfold Spec.connector_defaulting.
  destruct (Info.output i), (Info.stmtConns i); reflexivity.
Qed.

(** Runs the statements of [init] one by one, splitting on each condition
    when it is reached; [Hi] says what [this.info] holds at the start. *)
Ltac run_init Hi :=
  repeat first
    [ rewrite M_bind_run
    | erewrite this_info_run by (first [apply lookup_insert_eq | exact Hi])
    | erewrite set_this_info_stmtConns_run by exact Hi
    | rewrite connector_defaulting_code
    | progress cbn [when call mret M_ret get_this set_this_helpUrl
                    set_this_multipleOutputs heap this calls
                    prefix colour info blockName helpUrl multipleOutputs
                    outputConnection negb andb
                    Info.set_stmtConns Info.stmtConns Info.output
                    Info.multipleOutputs]
    | match goal with
      | |- context [when ?c _ _] => destruct c eqn:?
      | |- context [match Info.tooltip ?i with _ => _ end] =>
          destruct (Info.tooltip i) as [[?|?]|]
      end ].

(** [init] in closed form: it always returns when [this.info] is an
    object, and the final heap, block and calls are those of [Spec]. *)
Lemma init_run st i :
  heap st !! info (this st) = Some i ->
  init st = Ok (tt, mkState (Spec.init_heap (heap st) (info (this st)) i)
                            (Spec.init_this (this st) i)
                            (calls st ++ Spec.init_calls (this st) i)).
Proof.
  intros Hi. destruct st as [h [p c l name url outputs conn] cs].
  cbn [heap this calls info] in Hi |- *.
  unfold init, Spec.init_heap, Spec.init_this, Spec.init_calls,
    Spec.tooltip_calls, Spec.connector_calls, Spec.output_calls,
    Spec.final_stmtConns.
  run_init Hi.
  all: unfold call, mret, M_ret; cbn [heap this calls].
  all: repeat rewrite <- app_assoc; rewrite ?app_nil_r; reflexivity.
Qed.

Lemma statement_calls_init_calls b i :
  Spec.statement_calls (Spec.init_calls b i) = Spec.connector_calls i.
Proof.
  unfold Spec.statement_calls, Spec.init_calls.
  rewrite !List.filter_app.
  assert (List.filter Spec.is_statement_call (Spec.tooltip_calls i) = [])
    as ->.
  { unfold Spec.tooltip_calls.
    destruct (Info.tooltip i) as [[text|f]|]; [|reflexivity..].
    now destruct (JS.truthy_string text). }
  assert (List.filter Spec.is_statement_call (Spec.output_calls i) = [])
    as ->.
  { unfold Spec.output_calls. rewrite List.filter_app.
    destruct (bool_decide _), (_ && _); reflexivity. }
  cbn [List.filter Spec.is_statement_call app]. rewrite app_nil_r.
  unfold Spec.connector_calls.
  now destruct (JS.truthy JS.truthy_number (Spec.final_stmtConns i)).
Qed.

(** C3: on a block whose [info] has [multipleOutputs] and [output] unset,
    [init] returns, and among the calls it makes those on the statement
    connectors are [setPreviousStatement(true)] and [setNextStatement(true)]
    when [stmtConns] is not [NONE] (unset included), and there is none when
    [stmtConns] is [NONE]. *)
Theorem init_statement_connectors st i :
  heap st !! info (this st) = Some i ->
  Info.multipleOutputs i = None ->
  Info.output i = None ->
  exists st' new,
    init st = Ok (tt, st') /\
    calls st' = calls st ++ new /\
    (Info.stmtConns i <> Some StmtConns.NONE ->
     Spec.statement_calls new =
     [setPreviousStatement true; setNextStatement true]) /\
    (Info.stmtConns i = Some StmtConns.NONE ->
     Spec.statement_calls new = []).
Proof.
  intros Hi Hmo Hout.
  eexists _, (Spec.init_calls (this st) i).
  split; [apply (init_run st i Hi)|]. split; [reflexivity|].
  rewrite statement_calls_init_calls.
  unfold Spec.connector_calls, Spec.final_stmtConns,
    Spec.connector_defaulting.
  rewrite Hmo, Hout. cbn [JS.truthy negb andb].
  split.
  - intros Hsc. destruct (Info.stmtConns i) as [n|]; [|reflexivity].
    destruct (Z.eqb_spec n StmtConns.NONE) as [->|Hn]; [congruence|].
    reflexivity.
  - intros ->. reflexivity.
Qed.

Lemma init_statement_connectors_witness :
  exists st' new,
    init (Sample.fresh Sample.turn_left) = Ok (tt, st') /\
    calls st' = calls (Sample.fresh Sample.turn_left) ++ new /\
    (Info.stmtConns Sample.turn_left <> Some StmtConns.NONE ->
     Spec.statement_calls new =
     [setPreviousStatement true; setNextStatement true]) /\
    (Info.stmtConns Sample.turn_left = Some StmtConns.NONE ->
     Spec.statement_calls new = []).
Proof.
  apply (init_statement_connectors (Sample.fresh Sample.turn_left)
           Sample.turn_left); reflexivity.
Defined.

(** C6, at the failing input: [info.helpUrl] is provided and
    [info.helpUrlType] is [PREFIX_NAME]; [init] assigns the derived URL to
    the help URL of the block all the same. *)
Theorem init_helpUrlType_despite_helpUrl :
  Info.helpUrl Sample.with_helpUrl = Some "http://example.com/forward" /\
  exists st',
    init (Sample.fresh Sample.with_helpUrl) = Ok (tt, st') /\
    helpUrl (this st') = Some "http://computercraft.info/wiki/Turtle.forward".
Proof.
  split; [reflexivity|]. eexists. split.
  - apply (init_run _ Sample.with_helpUrl). reflexivity.
  - reflexivity.
Qed.

(** With [helpUrlType] equal to [PREFIX_NAME], the help URL that [init]
    sets is [BASE_HELP_URL], the prefix with its first character in upper
    case, a dot and [info.funcName]; with any other [helpUrlType], [init]
    leaves the help URL of the block as it was. *)
Lemma init_helpUrl st i :
  heap st !! info (this st) = Some i ->
  exists st',
    init st = Ok (tt, st') /\
    (Info.helpUrlType i = Some HelpUrlType.PREFIX_NAME ->
     helpUrl (this st') =
     Some (BASE_HELP_URL +:+ JS.toUpperCase (JS.charAt (prefix (this st)) 0)
           +:+ JS.slice (prefix (this st)) 1 +:+ "." +:+
           JS.ToString (Info.funcName i))) /\
    (Info.helpUrlType i <> Some HelpUrlType.PREFIX_NAME ->
     helpUrl (this st') = helpUrl (this st)).
Proof.
  intros Hi. eexists. split; [apply (init_run st i Hi)|].
  cbn [this Spec.init_this helpUrl]. split.
  - intros ->. reflexivity.
  - intros Hne. destruct (Info.helpUrlType i) as [n|]; [|reflexivity].
    cbn [JS.loose_eq_number].
    destruct (Z.eqb_spec n HelpUrlType.PREFIX_NAME); congruence.
Qed.

Example init_helpUrl_derived :
  exists st',
    init (Sample.fresh Sample.derived_helpUrl) = Ok (tt, st') /\
    helpUrl (this st') = Some "http://computercraft.info/wiki/Turtle.forward".
Proof.
  destruct (init_helpUrl (Sample.fresh Sample.derived_helpUrl)
              Sample.derived_helpUrl eq_refl) as (st' & Hinit & Hurl & _).
  exists st'. split; [exact Hinit | exact (Hurl eq_refl)].
Qed.

(** C7, as stated, fails when connector defaulting applies: [init] writes
    [BOTH] into the [stmtConns] of the [info] object it was given. *)
Lemma init_overwrites_stmtConns :
  heap (Sample.fresh Sample.turn_left) !! 1%positive = Some Sample.turn_left
  /\ Info.stmtConns Sample.turn_left = None /\
  exists st' i',
    init (Sample.fresh Sample.turn_left) = Ok (tt, st') /\
    heap st' !! 1%positive = Some i' /\
    Info.stmtConns i' = Some StmtConns.BOTH /\
    i' <> Sample.turn_left.
Proof.
  split; [reflexivity|]. split; [reflexivity|].
  eexists _, (Info.set_stmtConns (Some StmtConns.BOTH) Sample.turn_left).
  split; [apply (init_run _ Sample.turn_left); reflexivity|].
  split; [reflexivity|]. split; [reflexivity | discriminate].
Qed.

(** C7 (amended): [init] leaves every field of the [info] object other
    than [stmtConns] unchanged, and every other object of the heap too; it
    leaves [stmtConns] unchanged when connector defaulting does not apply,
    and overwrites it with [BOTH] when it applies ([multipleOutputs] falsy,
    [output] undefined and [stmtConns] not [NONE]). *)
Theorem init_info_frame st i :
  heap st !! info (this st) = Some i ->
  exists st' i',
    init st = Ok (tt, st') /\
    info (this st') = info (this st) /\
    (forall l, l <> info (this st) -> heap st' !! l = heap st !! l) /\
    heap st' !! info (this st) = Some i' /\
    Info.blockName i' = Info.blockName i /\
    Info.funcName i' = Info.funcName i /\
    Info.output i' = Info.output i /\
    Info.multipleOutputs i' = Info.multipleOutputs i /\
    Info.tooltip i' = Info.tooltip i /\
    Info.helpUrl i' = Info.helpUrl i /\
    Info.helpUrlType i' = Info.helpUrlType i /\
    Info.stmtConns i' =
    (if Spec.connector_defaulting i then Some StmtConns.BOTH
     else Info.stmtConns i).
Proof.
  intros Hi.
  eexists _, (if Spec.connector_defaulting i
              then Info.set_stmtConns (Some StmtConns.BOTH) i else i).
  split; [apply (init_run st i Hi)|].
  cbn [heap this Spec.init_this info]. unfold Spec.init_heap.
  destruct (Spec.connector_defaulting i).
  - split; [reflexivity|]. split.
    { intros l Hl. now apply lookup_insert_ne. }
    split; [apply lookup_insert_eq|]. now repeat split.
  - now repeat split.
Qed.

Lemma init_info_frame_witness :
  exists st' i',
    init (Sample.fresh Sample.no_connectors) = Ok (tt, st') /\
    info (this st') = info (this (Sample.fresh Sample.no_connectors)) /\
    (forall l, l <> info (this (Sample.fresh Sample.no_connectors)) ->
       heap st' !! l = heap (Sample.fresh Sample.no_connectors) !! l) /\
    heap st' !! info (this (Sample.fresh Sample.no_connectors)) = Some i' /\
    Info.blockName i' = Info.blockName Sample.no_connectors /\
    Info.funcName i' = Info.funcName Sample.no_connectors /\
    Info.output i' = Info.output Sample.no_connectors /\
    Info.multipleOutputs i' = Info.multipleOutputs Sample.no_connectors /\
    Info.tooltip i' = Info.tooltip Sample.no_connectors /\
    Info.helpUrl i' = Info.helpUrl Sample.no_connectors /\
    Info.helpUrlType i' = Info.helpUrlType Sample.no_connectors /\
    Info.stmtConns i' =
    (if Spec.connector_defaulting Sample.no_connectors
     then Some StmtConns.BOTH
     else Info.stmtConns Sample.no_connectors).
Proof.
  apply (init_info_frame (Sample.fresh Sample.no_connectors)
           Sample.no_connectors).
  reflexivity.
Defined.

(** ** Code generation *)

Lemma forEach_app {S A} (f : S -> A -> Result S) l1 l2 s :
  JS.forEach f (l1 ++ l2) s =
  match JS.forEach f l1 s with
  | Ok s' => JS.forEach f l2 s'
  | Throw e => Throw e
  end.
Proof.
  revert s. induction l1 as [|a l1 IH]; intros s; [reflexivity|].
  cbn [app JS.forEach]. destruct (f s a); [apply IH | reflexivity].
Qed.

(** C9: the [generateDropdownCode] of the base class fails on every
    dropdown field, with the failure "generateDropdownCode() must be
    overridden."; it never returns a code fragment. *)
Theorem generateDropdownCode_fails :
  forall (thisBlock : Block) (field : Field),
    generateDropdownCode thisBlock field =
    Throw (Failure (Some "generateDropdownCode() must be overridden.")) /\
    forall code, generateDropdownCode thisBlock field <> Ok code.
Proof. intros thisBlock field. split; [reflexivity | discriminate]. Qed.

Section CodeGenerationFacts.
Context {framework : Framework} {subclass : Subclass}.
Variable b : Block.

(** A block type that does not define the hook gets the failing one. *)
Lemma this_generateDropdownCode_inherited field :
  override_generateDropdownCode = None ->
  this_generateDropdownCode b field =
  Throw (Failure (Some "generateDropdownCode() must be overridden.")).
Proof. intros H. unfold this_generateDropdownCode. now rewrite H. Qed.

Lemma callback_value_input acc name input :
  getInput b name = Some input ->
  Input.type input = INPUT_VALUE ->
  generateLuaInner__callback b acc name =
  Ok (acc ++ [valueToCode b (Input.name input) ORDER_NONE]).
Proof.
  intros Hinput Htype. unfold generateLuaInner__callback.
  rewrite Hinput, Htype, Z.eqb_refl. reflexivity.
Qed.

Lemma callback_not_value_input acc name input :
  getInput b name = Some input ->
  Input.type input <> INPUT_VALUE ->
  generateLuaInner__callback b acc name = Throw (AssertionFailed None).
Proof.
  intros Hinput Htype. unfold generateLuaInner__callback.
  rewrite Hinput. apply Z.eqb_neq in Htype. now rewrite Htype.
Qed.

Lemma callback_no_title acc name :
  getInput b name = None ->
  getTitle_ b name = None ->
  generateLuaInner__callback b acc name =
  Throw (AssertionFailed
           (Some ("Unable to find input or title named " +:+ name))).
Proof.
  intros Hinput Htitle. unfold generateLuaInner__callback.
  now rewrite Hinput, Htitle.
Qed.

Lemma callback_not_dropdown acc name title :
  getInput b name = None ->
  getTitle_ b name = Some title ->
  instanceof_FieldDropdown title = false ->
  generateLuaInner__callback b acc name =
  Throw (AssertionFailed
           (Some "Only value inputs and dropdowns are currently supported.")).
Proof.
  intros Hinput Htitle Hclass. unfold generateLuaInner__callback.
  now rewrite Hinput, Htitle, Hclass.
Qed.

Lemma callback_dropdown acc name title :
  getInput b name = None ->
  getTitle_ b name = Some title ->
  instanceof_FieldDropdown title = true ->
  generateLuaInner__callback b acc name =
  match this_generateDropdownCode b title with
  | Ok _ => Ok (acc ++ Spec.fragments b name)
  | Throw e => Throw e
  end.
Proof.
  intros Hinput Htitle Hclass.
  unfold generateLuaInner__callback, Spec.fragments.
  rewrite Hinput, Htitle, Hclass. cbn [assert mbind Result_bind].
  destruct (this_generateDropdownCode b title) as [[fragment|]|e];
    cbn [mbind Result_bind mret Result_ret JS.truthy JS.ToString];
    try reflexivity.
  - destruct (JS.truthy_string fragment); [reflexivity|].
    now rewrite app_nil_r.
  - now rewrite app_nil_r.
Qed.

(** A parameter that does not resolve makes the callback throw. *)
Lemma callback_unresolved acc name :
  Spec.resolves b name = false ->
  JS.is_Ok (generateLuaInner__callback b acc name) = false.
Proof.
  unfold Spec.resolves. intros H.
  destruct (getInput b name) as [input|] eqn:Hinput.
  - apply Z.eqb_neq in H.
    now rewrite (callback_not_value_input acc name input).
  - destruct (getTitle_ b name) as [title|] eqn:Htitle.
    + assert (instanceof_FieldDropdown title = false) as Hclass
        by now destruct title.
      now rewrite (callback_not_dropdown acc name title).
    + now rewrite callback_no_title.
Qed.

(** A parameter that resolves contributes its fragments, unless the hook
    throws, and then the callback throws the same. *)
Lemma callback_resolved acc name :
  Spec.resolves b name = true ->
  generateLuaInner__callback b acc name = Ok (acc ++ Spec.fragments b name)
  \/ exists title e,
       getInput b name = None /\ getTitle_ b name = Some title /\
       this_generateDropdownCode b title = Throw e /\
       generateLuaInner__callback b acc name = Throw e.
Proof.
  unfold Spec.resolves. intros H.
  destruct (getInput b name) as [input|] eqn:Hinput.
  - apply Z.eqb_eq in H. left.
    rewrite (callback_value_input acc name input) by assumption.
    unfold Spec.fragments. now rewrite Hinput.
  - destruct (getTitle_ b name) as [title|] eqn:Htitle; [|discriminate].
    assert (instanceof_FieldDropdown title = true) as Hclass
      by now destruct title.
    rewrite (callback_dropdown acc name title) by assumption.
    destruct (this_generateDropdownCode b title) as [r|e] eqn:Hhook.
    + now left.
    + right. now exists title, e.
Qed.

Lemma callback_ok acc name :
  Spec.parameter_ok b name = true ->
  generateLuaInner__callback b acc name = Ok (acc ++ Spec.fragments b name).
Proof.
  unfold Spec.parameter_ok. intros [Hres Hhook]%andb_prop.
  destruct (callback_resolved acc name Hres)
    as [H | (title & e & Hinput & Htitle & Hthrow & _)]; [exact H|].
  unfold Spec.hook_returns in Hhook.
  now rewrite Hinput, Htitle, Hthrow in Hhook.
Qed.

Lemma forEach_ok names : forall acc,
  forallb (Spec.parameter_ok b) names = true ->
  JS.forEach (generateLuaInner__callback b) names acc =
  Ok (acc ++ flat_map (Spec.fragments b) names).
Proof.
  induction names as [|name names IH]; intros acc H.
  - cbn. now rewrite app_nil_r.
  - cbn [forallb] in H. apply andb_prop in H as [Hname Hnames].
    cbn [JS.forEach flat_map]. rewrite (callback_ok acc name Hname).
    rewrite (IH _ Hnames). now rewrite <- app_assoc.
Qed.

Lemma forEach_unresolved names : forall acc,
  forallb (Spec.resolves b) names = false ->
  JS.is_Ok (JS.forEach (generateLuaInner__callback b) names acc) = false.
Proof.
  induction names as [|name names IH]; intros acc H; [discriminate|].
  cbn [forallb] in H. cbn [JS.forEach].
  destruct (Spec.resolves b name) eqn:Hres.
  - destruct (generateLuaInner__callback b acc name); [|reflexivity].
    now apply IH.
  - pose proof (callback_unresolved acc name Hres) as Hthrow.
    now destruct (generateLuaInner__callback b acc name).
Qed.

Lemma forEach_resolved names : forall acc,
  forallb (Spec.resolves b) names = true ->
  JS.is_Ok (JS.forEach (generateLuaInner__callback b) names acc) = true \/
  exists name title e,
    In name names /\ getInput b name = None /\
    getTitle_ b name = Some title /\
    this_generateDropdownCode b title = Throw e /\
    JS.forEach (generateLuaInner__callback b) names acc = Throw e.
Proof.
  induction names as [|name names IH]; intros acc H; [now left|].
  cbn [forallb] in H. apply andb_prop in H as [Hname Hnames].
  cbn [JS.forEach].
  destruct (callback_resolved acc name Hname)
    as [-> | (title & e & Hinput & Htitle & Hhook & ->)].
  - destruct (IH (acc ++ Spec.fragments b name) Hnames)
      as [Hok | (n & t & e & Hin & Hrest)]; [now left|].
    right. exists n, t, e. split; [now right | exact Hrest].
  - right. exists name, title, e. repeat split; try assumption. now left.
Qed.

Lemma generateLuaInner__is_Ok :
  JS.is_Ok (generateLuaInner_ b) =
  JS.is_Ok (JS.forEach (generateLuaInner__callback b)
                       (getOrderedParameterNames b) []).
Proof. unfold generateLuaInner_. now destruct (JS.forEach _ _ _). Qed.

Lemma generateLuaInner__Throw e :
  JS.forEach (generateLuaInner__callback b) (getOrderedParameterNames b) []
  = Throw e ->
  generateLuaInner_ b = Throw e.
Proof. intros H. unfold generateLuaInner_. now rewrite H. Qed.

End CodeGenerationFacts.

(** C4: when every parameter resolves and the hook returns on the
    dropdowns, [generateLuaInner_] returns the function name, an opening
    parenthesis, the fragments joined by ", " and a closing parenthesis,
    where the fragments are those of the parameters taken in the order of
    [getOrderedParameterNames]: for a value input its code, for a dropdown
    title the fragment of the hook when it is not empty, and nothing when
    the hook gives an empty string or no string. *)
Theorem generateLuaInner__arguments
    {framework : Framework} {subclass : Subclass} (this : Block) :
  forallb (Spec.parameter_ok this) (getOrderedParameterNames this) = true ->
  generateLuaInner_ this =
  Ok (getFuncName this +:+ "(" +:+
      JS.join ", " (flat_map (Spec.fragments this)
                             (getOrderedParameterNames this)) +:+ ")") /\
  (forall name input, getInput this name = Some input ->
     Spec.fragments this name =
     [valueToCode this (Input.name input) ORDER_NONE]) /\
  (forall name title fragment,
     getInput this name = None -> getTitle_ this name = Some title ->
     this_generateDropdownCode this title = Ok (Some fragment) ->
     fragment <> "" ->
     Spec.fragments this name = [fragment]) /\
  (forall name title,
     getInput this name = None -> getTitle_ this name = Some title ->
     this_generateDropdownCode this title = Ok None \/
     this_generateDropdownCode this title = Ok (Some "") ->
     Spec.fragments this name = []).
Proof.
  intros Hok. split; [|split; [|split]].
  - unfold generateLuaInner_. now rewrite (forEach_ok this _ [] Hok).
  - intros name input Hinput. unfold Spec.fragments. now rewrite Hinput.
  - intros name title fragment Hinput Htitle Hhook Hne.
    unfold Spec.fragments. rewrite Hinput, Htitle, Hhook.
    now destruct fragment.
  - intros name title Hinput Htitle Hhook.
    unfold Spec.fragments. rewrite Hinput, Htitle.
    now destruct Hhook as [-> | ->].
Qed.

Lemma generateLuaInner__arguments_witness :
  generateLuaInner_ (framework := Sample.framework)
    (subclass := Sample.quoting ["DIR"; "SIDE"; "DISTANCE"]) Sample.block =
  Ok "turtle.move('forward', n + 1)".
Proof.
  exact (proj1 (generateLuaInner__arguments (framework := Sample.framework)
                  (subclass := Sample.quoting ["DIR"; "SIDE"; "DISTANCE"])
                  Sample.block eq_refl)).
Defined.

(** C5: when [generateLuaInner_] returns [expr], [generateLua] returns the
    array of [expr] and [ORDER_HIGH] if the block has an output connection,
    and the string [expr] followed by a line feed (the character of code 10)
    if it has none; so the result is an array exactly when the block has an
    output connection. *)
Theorem generateLua_by_outputConnection
    {framework : Framework} {subclass : Subclass} (this : Block) expr :
  generateLuaInner_ this = Ok expr ->
  (outputConnection this = true ->
   generateLua this = Ok (code_array expr ORDER_HIGH)) /\
  (outputConnection this = false ->
   generateLua this = Ok (code_string (expr +:+ String "010" ""))) /\
  (forall r, generateLua this = Ok r ->
     Spec.is_code_array r = outputConnection this).
Proof.
  intros Hexpr. unfold generateLua. rewrite Hexpr.
  cbn [mbind Result_bind].
  repeat split.
  - now intros ->.
  - now intros ->.
  - intros r. destruct (outputConnection this); now intros [= <-].
Qed.

Lemma generateLua_by_outputConnection_witness :
  generateLua (framework := Sample.framework)
    (subclass := Sample.quoting ["DISTANCE"]) Sample.value_block =
  Ok (code_array "turtle.move(n + 1)" 1) /\
  generateLua (framework := Sample.framework)
    (subclass := Sample.quoting ["DISTANCE"]) Sample.block =
  Ok (code_string ("turtle.move(n + 1)" +:+ String "010" "")).
Proof.
  split.
  - apply (generateLua_by_outputConnection (framework := Sample.framework)
             (subclass := Sample.quoting ["DISTANCE"])
             Sample.value_block "turtle.move(n + 1)"); reflexivity.
  - apply (generateLua_by_outputConnection (framework := Sample.framework)
             (subclass := Sample.quoting ["DISTANCE"])
             Sample.block "turtle.move(n + 1)"); reflexivity.
Defined.

Lemma forallb_first_false {A} (f : A -> bool) l :
  forallb f l = false ->
  exists before x after,
    l = before ++ x :: after /\ forallb f before = true /\ f x = false.
Proof.
  induction l as [|a l IH]; [discriminate|].
  cbn [forallb]. destruct (f a) eqn:Ha.
  - intros (before & x & after & -> & Hbefore & Hx)%IH.
    exists (a :: before), x, after. cbn [forallb app].
    now rewrite Ha, Hbefore.
  - intros _. now exists [], a, l.
Qed.

Lemma callback_resolution_failure
    {framework : Framework} {subclass : Subclass} (b : Block) acc name :
  Spec.resolves b name = false ->
  generateLuaInner__callback b acc name =
  Throw (Spec.resolution_failure b name).
Proof.
  unfold Spec.resolves, Spec.resolution_failure. intros H.
  destruct (getInput b name) as [input|] eqn:Hinput.
  - apply Z.eqb_neq in H.
    now apply (callback_not_value_input b acc name input).
  - destruct (getTitle_ b name) as [title|] eqn:Htitle.
    + assert (instanceof_FieldDropdown title = false) as Hclass
        by now destruct title.
      now apply (callback_not_dropdown b acc name title).
    + now apply callback_no_title.
Qed.

(** C8, as stated, fails when the dropdown hook throws first: with the
    parameters [DIR], a dropdown, and [MISSING], neither an input nor a
    title, on a block type that inherits the hook, [generateLuaInner_] fails
    with the failure of the hook, not with the assertion on [MISSING]. *)
Lemma generateLuaInner__hook_failure_first :
  @getInput Sample.framework Sample.block "MISSING" = None /\
  @getTitle_ Sample.framework Sample.block "MISSING" = None /\
  generateLuaInner_ (framework := Sample.framework)
    (subclass := Sample.inheriting ["DIR"; "MISSING"]) Sample.block =
  Throw (Failure (Some "generateDropdownCode() must be overridden.")) /\
  generateLuaInner_ (framework := Sample.framework)
    (subclass := Sample.inheriting ["DIR"; "MISSING"]) Sample.block <>
  Throw (AssertionFailed
           (Some "Unable to find input or title named MISSING")).
Proof. repeat split. discriminate. Qed.

(** C8 (amended): [generateLuaInner_] fails on the assertions about its
    parameters at the first parameter that resolves badly, when every
    parameter before it resolves and the dropdown hook returned on it.  If
    every parameter resolves to a value input or a dropdown title, it
    returns, unless the dropdown hook throws on one of the titles, and then
    it throws what the hook threw.  If some parameter resolves to neither,
    it does not return: it throws the assertion on the first such parameter,
    or what the hook threw on a dropdown before it.  The assertion is
    "Unable to find input or title named " and the name when there is
    neither an input nor a title of that name, the assertion on the type of
    the input when the input is not a value input, and "Only value inputs
    and dropdowns are currently supported." when the title is not a
    dropdown. *)
Theorem generateLuaInner__resolution
    {framework : Framework} {subclass : Subclass} (this : Block) :
  (forallb (Spec.resolves this) (getOrderedParameterNames this) = true ->
   JS.is_Ok (generateLuaInner_ this) = true \/
   exists name title e,
     In name (getOrderedParameterNames this) /\
     getInput this name = None /\ getTitle_ this name = Some title /\
     this_generateDropdownCode this title = Throw e /\
     generateLuaInner_ this = Throw e) /\
  (forallb (Spec.parameter_ok this) (getOrderedParameterNames this) = true ->
   JS.is_Ok (generateLuaInner_ this) = true) /\
  (forallb (Spec.resolves this) (getOrderedParameterNames this) = false ->
   JS.is_Ok (generateLuaInner_ this) = false) /\
  (forall before name after,
     getOrderedParameterNames this = before ++ name :: after ->
     forallb (Spec.parameter_ok this) before = true ->
     (getInput this name = None -> getTitle_ this name = None ->
      generateLuaInner_ this =
      Throw (AssertionFailed
               (Some ("Unable to find input or title named " +:+ name)))) /\
     (forall input, getInput this name = Some input ->
        Input.type input <> INPUT_VALUE ->
        generateLuaInner_ this = Throw (AssertionFailed None)) /\
     (forall title, getInput this name = None ->
        getTitle_ this name = Some title ->
        instanceof_FieldDropdown title = false ->
        generateLuaInner_ this =
        Throw (AssertionFailed
                 (Some "Only value inputs and dropdowns are currently supported.")))) /\
  (forallb (Spec.resolves this) (getOrderedParameterNames this) = false ->
   exists before name after,
     getOrderedParameterNames this = before ++ name :: after /\
     forallb (Spec.resolves this) before = true /\
     Spec.resolves this name = false /\
     (generateLuaInner_ this = Throw (Spec.resolution_failure this name) \/
      exists earlier title e,
        In earlier before /\
        getInput this earlier = None /\
        getTitle_ this earlier = Some title /\
        this_generateDropdownCode this title = Throw e /\
        generateLuaInner_ this = Throw e)).
Proof.
  split; [|split; [|split; [|split]]].
  - intros Hres. rewrite generateLuaInner__is_Ok.
    destruct (forEach_resolved this _ [] Hres)
      as [Hok | (name & title & e & Hin & Hinput & Htitle & Hhook & Hthrow)];
      [now left|].
    right. exists name, title, e. repeat split; try assumption.
    now apply generateLuaInner__Throw.
  - intros Hok. rewrite generateLuaInner__is_Ok.
    now rewrite (forEach_ok this _ [] Hok).
  - intros Hbad. rewrite generateLuaInner__is_Ok.
    now apply forEach_unresolved.
  - intros before name after Hnames Hbefore.
    assert (forall e,
      (forall acc, generateLuaInner__callback this acc name = Throw e) ->
      generateLuaInner_ this = Throw e) as Hfirst.
    { intros e Hcallback. apply generateLuaInner__Throw.
      rewrite Hnames, forEach_app, (forEach_ok this _ [] Hbefore).
      cbn [JS.forEach]. now rewrite Hcallback. }
    repeat split.
    + intros Hinput Htitle. apply Hfirst. intros acc.
      now apply callback_no_title.
    + intros input Hinput Htype. apply Hfirst. intros acc.
      now apply (callback_not_value_input this acc name input).
    + intros title Hinput Htitle Hclass. apply Hfirst. intros acc.
      now apply (callback_not_dropdown this acc name title).
  - intros (before & name & after & Hnames & Hbefore & Hname)
             %forallb_first_false.
    exists before, name, after. repeat split; try assumption.
    destruct (forEach_resolved this before [] Hbefore)
      as [Hok | (n & title & e & Hin & Hinput & Htitle & Hhook & Hthrow)].
    + left. apply generateLuaInner__Throw.
      rewrite Hnames, forEach_app.
      destruct (JS.forEach (generateLuaInner__callback this) before [])
        as [acc|e]; [|discriminate].
      cbn [JS.forEach].
      now rewrite (callback_resolution_failure this acc name Hname).
    + right. exists n, title, e. repeat split; try assumption.
      apply generateLuaInner__Throw.
      now rewrite Hnames, forEach_app, Hthrow.
Qed.

Lemma generateLuaInner__resolution_witness :
  JS.is_Ok (generateLuaInner_ (framework := Sample.framework)
              (subclass := Sample.quoting ["DIR"; "DISTANCE"]) Sample.block)
  = true /\
  generateLuaInner_ (framework := Sample.framework)
    (subclass := Sample.quoting ["DIR"; "MISSING"; "DISTANCE"]) Sample.block =
  Throw (AssertionFailed
           (Some "Unable to find input or title named MISSING")) /\
  generateLuaInner_ (framework := Sample.framework)
    (subclass := Sample.quoting ["DIR"; "BODY"]) Sample.block =
  Throw (AssertionFailed None) /\
  generateLuaInner_ (framework := Sample.framework)
    (subclass := Sample.quoting ["LABEL"]) Sample.block =
  Throw (AssertionFailed
           (Some "Only value inputs and dropdowns are currently supported.")).
Proof.
  split; [|split; [|split]].
  - apply (generateLuaInner__resolution (framework := Sample.framework)
             (subclass := Sample.quoting ["DIR"; "DISTANCE"]) Sample.block).
    reflexivity.
  - destruct (generateLuaInner__resolution (framework := Sample.framework)
                (subclass := Sample.quoting ["DIR"; "MISSING"; "DISTANCE"])
                Sample.block) as (_ & _ & _ & Hfirst & _).
    apply (Hfirst ["DIR"] "MISSING" ["DISTANCE"]); reflexivity.
  - destruct (generateLuaInner__resolution (framework := Sample.framework)
                (subclass := Sample.quoting ["DIR"; "BODY"])
                Sample.block) as (_ & _ & _ & Hfirst & _).
    apply (Hfirst ["DIR"] "BODY" [] eq_refl eq_refl) with (Input.mk 3 "BODY");
      [reflexivity | discriminate].
  - destruct (generateLuaInner__resolution (framework := Sample.framework)
                (subclass := Sample.quoting ["LABEL"])
                Sample.block) as (_ & _ & _ & Hfirst & _).
    apply (Hfirst [] "LABEL" [] eq_refl eq_refl) with (FieldLabel "move");
      reflexivity.
Defined.

(** ** Further properties of convertFromCamelCase *)

Lemma is_lower_not_upper c : JS.is_lower c = true -> JS.is_upper c = false.
Proof.
  intros Hlow. destruct (JS.is_upper c) eqn:Hup; [|reflexivity].
  apply is_upper_not_lower in Hup. congruence.
Qed.

Lemma char_toLowerCase_no_upper c :
  JS.is_upper (JS.char_toLowerCase c) = false.
Proof.
  destruct (JS.is_upper c) eqn:Hup.
  - apply is_lower_not_upper. now apply char_toLowerCase_upper.
  - now rewrite char_toLowerCase_not_upper.
Qed.

Lemma underscore_eqb_lower c :
  JS.is_lower c = true -> Ascii.eqb c "_" = false.
Proof.
  intros Hlow. apply Ascii.eqb_neq. intros ->. discriminate.
Qed.

Lemma toLowerCase_no_upper s : Spec.no_upper (JS.toLowerCase s) = true.
Proof.
  induction s as [|c rest IH]; [reflexivity|].
  cbn [JS.toLowerCase Spec.no_upper].
  now rewrite char_toLowerCase_no_upper, IH.
Qed.

Lemma toLowerCase_id s : Spec.no_upper s = true -> JS.toLowerCase s = s.
Proof.
  induction s as [|c rest IH]; [reflexivity|].
  cbn [Spec.no_upper JS.toLowerCase].
  intros [Hc Hrest]%andb_prop. apply negb_true_iff in Hc.
  now rewrite char_toLowerCase_not_upper, IH.
Qed.

Lemma replace_id s :
  Spec.no_upper s = true -> replace_LOWER_TO_UPPER_REGEX_ s = s.
Proof.
  induction s as [|c rest IH]; [reflexivity|].
  cbn [Spec.no_upper]. intros [Hc Hrest]%andb_prop.
  rewrite replace_LOWER_TO_UPPER_REGEX__cons, (IH Hrest).
  assert (Spec.starts_upper rest = false) as ->.
  { destruct rest as [|d rest']; [reflexivity|].
    cbn [Spec.no_upper] in Hrest. apply andb_prop in Hrest as [Hd _].
    now apply negb_true_iff in Hd. }
  now rewrite andb_false_r.
Qed.

Lemma char_toLowerCase_ascii c :
  Nat.ltb (nat_of_ascii c) 128 = true ->
  Nat.ltb (nat_of_ascii (JS.char_toLowerCase c)) 128 = true.
Proof.
  intros Hc. unfold JS.char_toLowerCase.
  destruct (JS.is_upper c) eqn:Hup; [|exact Hc].
  unfold JS.is_upper in Hup. apply andb_prop in Hup as [_ H90].
  apply Nat.leb_le in H90.
  rewrite nat_ascii_embedding by lia. apply Nat.ltb_lt. lia.
Qed.

Lemma convertFromCamelCase_ascii s :
  Spec.is_ascii s = true -> Spec.is_ascii (convertFromCamelCase s) = true.
Proof.
  unfold convertFromCamelCase.
  induction s as [|c rest IH]; [reflexivity|].
  cbn [Spec.is_ascii]. intros [Hc Hrest]%andb_prop.
  rewrite replace_LOWER_TO_UPPER_REGEX__cons.
  cbn [JS.toLowerCase Spec.is_ascii]. rewrite toLowerCase_app.
  rewrite (char_toLowerCase_ascii c Hc).
  destruct (JS.is_lower c && Spec.starts_upper rest); cbn; now apply IH.
Qed.

(** X1: on strings of ASCII characters, a string without upper-case
    letters is left as it is, the result is again a string of ASCII
    characters, and so converting twice is converting once. *)
Theorem convertFromCamelCase_idempotent :
  (forall s, Spec.is_ascii s = true -> Spec.no_upper s = true ->
     convertFromCamelCase s = s) /\
  (forall s, Spec.is_ascii s = true ->
     Spec.is_ascii (convertFromCamelCase s) = true /\
     convertFromCamelCase (convertFromCamelCase s) =
     convertFromCamelCase s).
Proof.
  assert (forall s, Spec.no_upper s = true -> convertFromCamelCase s = s)
    as Hid.
  { intros s Hs. unfold convertFromCamelCase.
    now rewrite (replace_id s Hs), (toLowerCase_id s Hs). }
  split; [intros s _; apply Hid|].
  intros s Hs. split; [now apply convertFromCamelCase_ascii|].
  apply Hid. apply toLowerCase_no_upper.
Qed.

Lemma convertFromCamelCase_idempotent_witness :
  convertFromCamelCase "is_present" = "is_present" /\
  convertFromCamelCase (convertFromCamelCase "getHTTPCode") =
  convertFromCamelCase "getHTTPCode".
Proof.
  split.
  - apply (proj1 convertFromCamelCase_idempotent "is_present");
      reflexivity.
  - apply (proj2 convertFromCamelCase_idempotent "getHTTPCode").
    reflexivity.
Defined.

Lemma convertFromCamelCase_cons c rest :
  convertFromCamelCase (String c rest) =
  String (JS.char_toLowerCase c)
    ((if JS.is_lower c && Spec.starts_upper rest then "_" else "") +:+
     convertFromCamelCase rest).
Proof.
  unfold convertFromCamelCase.
  rewrite replace_LOWER_TO_UPPER_REGEX__cons.
  cbn [JS.toLowerCase]. rewrite toLowerCase_app.
  now destruct (JS.is_lower c && Spec.starts_upper rest).
Qed.

Lemma letter_toLowerCase_lower c :
  JS.is_lower c || JS.is_upper c = true ->
  JS.is_lower (JS.char_toLowerCase c) = true.
Proof.
  intros Hc. destruct (JS.is_upper c) eqn:Hup.
  - now apply char_toLowerCase_upper.
  - rewrite char_toLowerCase_not_upper by assumption.
    now rewrite orb_false_r in Hc.
Qed.

(** X2: on a string of letters, the underscores are all that the
    conversion adds: without them the result is the string in lower case. *)
Theorem convertFromCamelCase_strip_underscores s :
  Spec.only_letters s = true ->
  Spec.strip_underscores (convertFromCamelCase s) = JS.toLowerCase s.
Proof.
  induction s as [|c rest IH]; [reflexivity|].
  cbn [Spec.only_letters]. intros [Hc Hrest]%andb_prop.
  rewrite convertFromCamelCase_cons.
  cbn [Spec.strip_underscores JS.toLowerCase].
  rewrite (underscore_eqb_lower _ (letter_toLowerCase_lower c Hc)).
  f_equal.
  destruct (JS.is_lower c && Spec.starts_upper rest); cbn; now apply IH.
Qed.

Lemma convertFromCamelCase_strip_underscores_witness :
  Spec.strip_underscores (convertFromCamelCase "getHTTPCode") =
  JS.toLowerCase "getHTTPCode".
Proof.
  apply (convertFromCamelCase_strip_underscores "getHTTPCode"). reflexivity.
Defined.

Lemma convertFromCamelCase_starts_lower s :
  Spec.only_letters s = true -> s <> "" ->
  Spec.starts_lower (convertFromCamelCase s) = true.
Proof.
  destruct s as [|c rest]; [congruence|].
  cbn [Spec.only_letters]. intros [Hc _]%andb_prop _.
  rewrite convertFromCamelCase_cons. cbn [Spec.starts_lower].
  now apply letter_toLowerCase_lower.
Qed.

(** X3: on a string of letters, every underscore of the result stands
    between two lower-case letters: the result neither starts nor ends with
    an underscore, and no two underscores are adjacent. *)
Theorem convertFromCamelCase_underscores_between_letters s :
  Spec.only_letters s = true ->
  Spec.underscores_between_letters false (convertFromCamelCase s) = true.
Proof.
  intros Hs.
  enough (forall after_letter,
            Spec.underscores_between_letters after_letter
              (convertFromCamelCase s) = true) as H by apply H.
  induction s as [|c rest IH]; intros after_letter; [reflexivity|].
  cbn [Spec.only_letters] in Hs. apply andb_prop in Hs as [Hc Hrest].
  rewrite convertFromCamelCase_cons.
  pose proof (letter_toLowerCase_lower c Hc) as Hlow.
  cbn [Spec.underscores_between_letters].
  rewrite (underscore_eqb_lower _ Hlow), Hlow.
  destruct (JS.is_lower c && Spec.starts_upper rest) eqn:Hsep.
  - change ("_" +:+ convertFromCamelCase rest)
      with (String "_" (convertFromCamelCase rest)).
    cbn [Spec.underscores_between_letters Ascii.eqb Bool.eqb andb].
    rewrite (IH Hrest false), andb_true_r.
    apply convertFromCamelCase_starts_lower; [exact Hrest|].
    apply andb_prop in Hsep as [_ Hup]. now destruct rest.
  - now apply IH.
Qed.

Lemma convertFromCamelCase_underscores_between_letters_witness :
  Spec.underscores_between_letters false (convertFromCamelCase "getHTTPCode")
  = true.
Proof.
  apply (convertFromCamelCase_underscores_between_letters "getHTTPCode").
  reflexivity.
Defined.

(** ** Further properties of getBlockName_ *)

(** X4: [getBlockName_] returns exactly when [info.blockName] or
    [info.funcName] is a non-empty string; the name it returns is the
    prefix, an underscore and a suffix that is never empty; and the only
    exception it throws is the assertion on [info.funcName]. *)
Theorem getBlockName__returns prefix i :
  JS.is_Ok (getBlockName_ prefix i) =
  JS.truthy JS.truthy_string (Info.blockName i) ||
  JS.truthy JS.truthy_string (Info.funcName i) /\
  (forall name, getBlockName_ prefix i = Ok name ->
     exists suffix, suffix <> "" /\ name = prefix +:+ "_" +:+ suffix) /\
  (forall e, getBlockName_ prefix i = Throw e ->
     e = AssertionFailed (Some "info.funcName not defined")).
Proof.
  unfold getBlockName_.
  destruct (Info.blockName i) as [[|c bn]|];
    destruct (Info.funcName i) as [[|d f]|];
    cbn [JS.truthy JS.truthy_string negb orb assert mbind Result_bind
         mret Result_ret JS.ToString JS.is_Ok];
    (split; [reflexivity|]); split;
    try (intros ? [=]; fail);
    try (intros ? [= <-]; reflexivity).
  all: intros name [= <-].
  all: first [ exists (String c bn); split; [discriminate | reflexivity]
             | exists (convertFromCamelCase (String d f)); split;
               [now apply convertFromCamelCase_not_empty | reflexivity] ].
Qed.

(** ** Further properties of init *)

Lemma ToInt32_testbit n k :
  0 <= k < 32 -> Z.testbit (JS.ToInt32 n) k = Z.testbit n k.
Proof.
  intros Hk. unfold JS.ToInt32.
  rewrite <- (Z.mod_pow2_bits_low ((n + 2 ^ 31) mod 2 ^ 32 - 2 ^ 31) 32 k)
    by lia.
  rewrite <- (Z.mod_pow2_bits_low n 32 k) by lia.
  f_equal.
  rewrite Zminus_mod_idemp_l.
  replace (n + 2 ^ 31 - 2 ^ 31) with n by lia. reflexivity.
Qed.

Lemma land_pow2_eqb x k :
  0 <= k -> (Z.land x (2 ^ k) =? 0) = negb (Z.testbit x k).
Proof.
  intros Hk.
  assert (Z.land x (2 ^ k) = if Z.testbit x k then 2 ^ k else 0) as ->.
  { apply Z.bits_inj'. intros m Hm.
    rewrite Z.land_spec, Z.pow2_bits_eqb by lia.
    destruct (Z.eqb_spec k m) as [->|Hne].
    - rewrite andb_true_r. destruct (Z.testbit x m) eqn:E.
      + now rewrite Z.pow2_bits_true.
      + now rewrite Z.bits_0.
    - rewrite andb_false_r. destruct (Z.testbit x k).
      + now rewrite Z.pow2_bits_false.
      + now rewrite Z.bits_0. }
  destruct (Z.testbit x k); [|reflexivity].
  apply Z.eqb_neq. lia.
Qed.

(** [(n & PREVIOUS) != 0] and [(n & NEXT) != 0] test bits 0 and 1. *)
Lemma bitand_PREVIOUS n :
  negb (JS.bitand n StmtConns.PREVIOUS =? 0) = Z.testbit n 0.
Proof.
  unfold JS.bitand.
  change (JS.ToInt32 StmtConns.PREVIOUS) with (2 ^ 0).
  rewrite land_pow2_eqb, negb_involutive by lia.
  apply ToInt32_testbit. lia.
Qed.

Lemma bitand_NEXT n :
  negb (JS.bitand n StmtConns.NEXT =? 0) = Z.testbit n 1.
Proof.
  unfold JS.bitand.
  change (JS.ToInt32 StmtConns.NEXT) with (2 ^ 1).
  rewrite land_pow2_eqb, negb_involutive by lia.
  apply ToInt32_testbit. lia.
Qed.

(** X8: when connector defaulting does not apply, the calls of [init] on
    the statement connectors follow the bits of [info.stmtConns]: none when
    it is unset or zero, and otherwise [setPreviousStatement] with bit 0 and
    [setNextStatement] with bit 1, in this order. *)
Theorem init_statement_connectors_by_bits st i :
  heap st !! info (this st) = Some i ->
  Spec.connector_defaulting i = false ->
  exists st' new,
    init st = Ok (tt, st') /\
    calls st' = calls st ++ new /\
    Spec.statement_calls new =
    match Info.stmtConns i with
    | Some n =>
        if n =? 0 then []
        else [setPreviousStatement (Z.testbit n 0);
              setNextStatement (Z.testbit n 1)]
    | None => []
    end.
Proof.
  intros Hi Hdef.
  eexists _, (Spec.init_calls (this st) i).
  split; [apply (init_run st i Hi)|]. split; [reflexivity|].
  rewrite statement_calls_init_calls.
  unfold Spec.connector_calls, Spec.final_stmtConns. rewrite Hdef.
  destruct (Info.stmtConns i) as [n|]; [|reflexivity].
  cbn [JS.truthy ToNumber_bits]. unfold JS.truthy_number.
  destruct (n =? 0); [reflexivity|]. cbn [negb].
  now rewrite bitand_PREVIOUS, bitand_NEXT.
Qed.

Lemma init_statement_connectors_by_bits_witness :
  exists st' new,
    init (Sample.fresh Sample.detect) = Ok (tt, st') /\
    calls st' = calls (Sample.fresh Sample.detect) ++ new /\
    Spec.statement_calls new =
    match Info.stmtConns Sample.detect with
    | Some n =>
        if n =? 0 then []
        else [setPreviousStatement (Z.testbit n 0);
              setNextStatement (Z.testbit n 1)]
    | None => []
    end.
Proof.
  apply (init_statement_connectors_by_bits
           (Sample.fresh Sample.detect) Sample.detect);
    reflexivity.
Defined.

(** X7: with [helpUrlType] equal to [PREFIX_NAME] and a prefix of ASCII
    characters, [init] replaces the help URL of the block, whatever it was,
    by [BASE_HELP_URL], the prefix with only its first character put in
    upper case (an empty prefix stays empty), a dot, and [info.funcName];
    when [info.funcName] is unset, the URL ends in ".undefined". *)
Theorem init_helpUrl_capitalized st i :
  heap st !! info (this st) = Some i ->
  Spec.is_ascii (prefix (this st)) = true ->
  Info.helpUrlType i = Some HelpUrlType.PREFIX_NAME ->
  exists st',
    init st = Ok (tt, st') /\
    helpUrl (this st') =
    Some (BASE_HELP_URL +:+ Spec.capitalize (prefix (this st)) +:+ "." +:+
          match Info.funcName i with
          | Some f => f
          | None => "undefined"
          end).
Proof.
  intros Hi _ Htype. eexists. split; [apply (init_run st i Hi)|].
  cbn [this Spec.init_this helpUrl]. rewrite Htype.
  cbn [JS.loose_eq_number]. rewrite Z.eqb_refl.
  destruct (prefix (this st)) as [|c [|d rest]]; reflexivity.
Qed.

Lemma init_helpUrl_capitalized_witness :
  exists st',
    init (Sample.fresh Sample.derived_helpUrl) = Ok (tt, st') /\
    helpUrl (this st') =
    Some "http://computercraft.info/wiki/Turtle.forward".
Proof.
  apply (init_helpUrl_capitalized (Sample.fresh Sample.derived_helpUrl)
           Sample.derived_helpUrl); reflexivity.
Defined.

Lemma filter_init_calls (keep : HostCall -> bool) b i :
  keep (setColour (colour b)) = false ->
  keep (setInputsInline true) = false ->
  List.filter keep (Spec.init_calls b i) =
  List.filter keep (Spec.tooltip_calls i) ++
  List.filter keep (Spec.connector_calls i) ++
  List.filter keep (Spec.output_calls i).
Proof.
  intros Hcolour Hinline. unfold Spec.init_calls.
  rewrite !List.filter_app. cbn [List.filter].
  now rewrite Hcolour, Hinline.
Qed.

Lemma tooltip_calls_are_tooltip_calls i :
  List.filter Spec.is_tooltip_call (Spec.tooltip_calls i) =
  Spec.tooltip_calls i.
Proof.
  unfold Spec.tooltip_calls.
  destruct (Info.tooltip i) as [[text|f]|]; [|reflexivity..].
  now destruct (JS.truthy_string text).
Qed.

Lemma output_calls_no_tooltip_call i :
  List.filter Spec.is_tooltip_call (Spec.output_calls i) = [].
Proof.
  unfold Spec.output_calls. rewrite List.filter_app.
  now destruct (bool_decide _), (_ && _).
Qed.

Lemma connector_calls_only_statement_calls keep i :
  (forall c, Spec.is_statement_call c = true -> keep c = false) ->
  List.filter keep (Spec.connector_calls i) = [].
Proof.
  intros Hkeep. unfold Spec.connector_calls.
  destruct (JS.truthy _ _); [|reflexivity].
  cbn [List.filter]. now rewrite !Hkeep.
Qed.

Lemma tooltip_calls_no_output_call i :
  List.filter Spec.is_output_call (Spec.tooltip_calls i) = [].
Proof.
  unfold Spec.tooltip_calls.
  destruct (Info.tooltip i) as [[text|f]|]; [|reflexivity..].
  now destruct (JS.truthy_string text).
Qed.

Lemma output_calls_are_output_calls i :
  List.filter Spec.is_output_call (Spec.output_calls i) = Spec.output_calls i.
Proof.
  unfold Spec.output_calls. rewrite List.filter_app.
  now destruct (bool_decide _), (_ && _).
Qed.

(** X11: [init] sets the tooltip at most once: not at all when
    [info.tooltip] is unset or the empty string, to the text when it is a
    non-empty string, and to a closure when it is a function; invoked once
    [init] has returned, the closure gives what the function gives on the
    block as [init] left it. *)
Theorem init_tooltip st i :
  heap st !! info (this st) = Some i ->
  exists st' new,
    init st = Ok (tt, st') /\
    calls st' = calls st ++ new /\
    (Info.tooltip i = None \/ Info.tooltip i = Some (tooltip_string "") ->
     List.filter Spec.is_tooltip_call new = []) /\
    (forall text, Info.tooltip i = Some (tooltip_string text) ->
       text <> "" ->
       List.filter Spec.is_tooltip_call new =
       [setTooltip (tooltip_text text)]) /\
    (forall f, Info.tooltip i = Some (tooltip_function f) ->
       List.filter Spec.is_tooltip_call new = [setTooltip tooltip_closure] /\
       tooltip_closure_apply st' = Ok (f (this st'))).
Proof.
  intros Hi.
  eexists _, (Spec.init_calls (this st) i).
  split; [apply (init_run st i Hi)|]. split; [reflexivity|].
  rewrite filter_init_calls by reflexivity.
  rewrite (connector_calls_only_statement_calls Spec.is_tooltip_call)
    by now intros [].
  rewrite output_calls_no_tooltip_call, tooltip_calls_are_tooltip_calls.
  rewrite !app_nil_r. unfold Spec.tooltip_calls.
  split; [|split].
  - now intros [-> | ->].
  - intros text -> Hne. now destruct text.
  - intros f Hf. rewrite Hf. split; [reflexivity|].
    unfold tooltip_closure_apply. cbn [heap this Spec.init_this info].
    unfold Spec.init_heap.
    destruct (Spec.connector_defaulting i).
    + rewrite lookup_insert_eq. cbn [Info.set_stmtConns Info.tooltip].
      now rewrite Hf.
    + now rewrite Hi, Hf.
Qed.

Lemma init_tooltip_witness :
  exists st',
    init (Sample.fresh Sample.pull_event) = Ok (tt, st') /\
    List.filter Spec.is_tooltip_call (calls st') =
    [setTooltip tooltip_closure] /\
    tooltip_closure_apply st' = Ok "Wait for turtle_turn_left".
Proof.
  destruct (init_tooltip (Sample.fresh Sample.pull_event) Sample.pull_event
              eq_refl) as (st' & new & Hinit & Hcalls & _ & _ & Hfun).
  destruct (Hfun _ eq_refl) as [Hnew Hclosure].
  exists st'. split; [exact Hinit|]. split.
  - rewrite Hcalls. exact Hnew.
  - rewrite Hclosure. f_equal.
    pose proof (init_run (Sample.fresh Sample.pull_event) Sample.pull_event
                  eq_refl) as Hrun.
    rewrite Hrun in Hinit. injection Hinit as <-. reflexivity.
Defined.

(** X9: the calls of [init] on the output connector.  There is none when
    [info.output] is undefined and [info.multipleOutputs] is falsy.  A
    defined [output] gives [setOutput(true, output)]; truthy
    [multipleOutputs] with an undefined [output] gives [setOutput(true)];
    and truthy [multipleOutputs] with an [output] that is defined but falsy
    ([null] or the empty string) gives both calls, the second one without
    the type. *)
Theorem init_output_calls st i :
  heap st !! info (this st) = Some i ->
  exists st' new,
    init st = Ok (tt, st') /\
    calls st' = calls st ++ new /\
    (Info.output i = None ->
     List.filter Spec.is_output_call new =
     if JS.truthy JS.truthy_number (Info.multipleOutputs i)
     then [setOutput true None] else []) /\
    (forall o, Info.output i = Some o ->
       List.filter Spec.is_output_call new =
       if JS.truthy JS.truthy_number (Info.multipleOutputs i) &&
          negb (truthy_output (Some o))
       then [setOutput true (Some o); setOutput true None]
       else [setOutput true (Some o)]).
Proof.
  intros Hi.
  eexists _, (Spec.init_calls (this st) i).
  split; [apply (init_run st i Hi)|]. split; [reflexivity|].
  rewrite filter_init_calls by reflexivity.
  rewrite (connector_calls_only_statement_calls Spec.is_output_call)
    by now intros [].
  rewrite tooltip_calls_no_output_call, output_calls_are_output_calls.
  cbn [app]. unfold Spec.output_calls.
  split.
  - intros ->. cbn [truthy_output negb]. rewrite andb_true_r.
    now destruct (JS.truthy _ _).
  - intros o ->.
    now destruct (JS.truthy _ _ && negb (truthy_output (Some o))).
Qed.

Lemma init_output_calls_witness :
  exists st',
    init (Sample.fresh Sample.pull_event) = Ok (tt, st') /\
    List.filter Spec.is_output_call (calls st') =
    [setOutput true (Some output_null); setOutput true None].
Proof.
  destruct (init_output_calls (Sample.fresh Sample.pull_event)
              Sample.pull_event eq_refl)
    as (st' & new & Hinit & Hcalls & _ & Hdefined).
  exists st'. split; [exact Hinit|].
  rewrite Hcalls. exact (Hdefined output_null eq_refl).
Defined.

Lemma existsb_attaches_tooltip_calls i :
  existsb Spec.attaches_connector (Spec.tooltip_calls i) = false.
Proof.
  unfold Spec.tooltip_calls.
  destruct (Info.tooltip i) as [[text|f]|]; [|reflexivity..].
  now destruct (JS.truthy_string text).
Qed.

Lemma existsb_attaches_output_calls i :
  existsb Spec.attaches_connector (Spec.output_calls i) =
  bool_decide (is_Some (Info.output i)) ||
  JS.truthy JS.truthy_number (Info.multipleOutputs i).
Proof.
  unfold Spec.output_calls. rewrite existsb_app.
  destruct (Info.output i) as [o|]; [reflexivity|].
  cbn [truthy_output negb]. rewrite andb_true_r.
  now destruct (JS.truthy _ _).
Qed.

(** X10: [init] attaches at least one connector (it calls
    [setPreviousStatement], [setNextStatement] or [setOutput] with [true])
    unless [info] asks for none, with no output, no additional outputs and
    [stmtConns] equal to [NONE]; and then it makes no call on the connectors
    at all. *)
Theorem init_attaches_connector st i :
  heap st !! info (this st) = Some i ->
  exists st' new,
    init st = Ok (tt, st') /\
    calls st' = calls st ++ new /\
    existsb Spec.attaches_connector new =
    negb (Spec.no_connector_requested i) /\
    (Spec.no_connector_requested i = true ->
     List.filter Spec.is_connector_call new = []).
Proof.
  intros Hi.
  eexists _, (Spec.init_calls (this st) i).
  split; [apply (init_run st i Hi)|]. split; [reflexivity|].
  unfold Spec.init_calls at 1.
  rewrite !existsb_app, existsb_attaches_tooltip_calls,
    existsb_attaches_output_calls.
  cbn [existsb Spec.attaches_connector orb].
  unfold Spec.connector_calls, Spec.final_stmtConns,
    Spec.connector_defaulting, Spec.no_connector_requested.
  destruct (JS.truthy JS.truthy_number (Info.multipleOutputs i)) eqn:Hmo;
    cbn [negb andb].
  { split; [now rewrite !orb_true_r | discriminate]. }
  destruct (Info.output i) as [o|] eqn:Hout; cbn [andb].
  { split; [now rewrite orb_true_r | discriminate]. }
  destruct (Info.stmtConns i) as [n|] eqn:Hsc; [|split; [reflexivity | discriminate]].
  destruct (n =? StmtConns.NONE) eqn:Hn; cbn [negb].
  - apply Z.eqb_eq in Hn. subst n. split; [reflexivity|]. intros _.
    unfold Spec.is_connector_call.
    rewrite filter_init_calls by reflexivity.
    unfold Spec.tooltip_calls, Spec.connector_calls, Spec.output_calls,
      Spec.final_stmtConns, Spec.connector_defaulting.
    rewrite Hmo, Hout, Hsc. cbn.
    destruct (Info.tooltip i) as [[text|f]|]; [|reflexivity..].
    now destruct (JS.truthy_string text).
  - split; [reflexivity | discriminate].
Qed.

Lemma init_attaches_connector_witness :
  exists st' new,
    init (Sample.fresh Sample.no_connectors) = Ok (tt, st') /\
    calls st' = calls (Sample.fresh Sample.no_connectors) ++ new /\
    existsb Spec.attaches_connector new =
    negb (Spec.no_connector_requested Sample.no_connectors) /\
    (Spec.no_connector_requested Sample.no_connectors = true ->
     List.filter Spec.is_connector_call new = []).
Proof.
  apply (init_attaches_connector (Sample.fresh Sample.no_connectors)
           Sample.no_connectors).
  reflexivity.
Defined.




(** X16: whatever [info] holds, [init] first sets the colour of the block
    to the colour given to the constructor and then asks for inline inputs,
    and it makes no other call on the colour or the layout. *)
Theorem init_style_calls st i :
  heap st !! info (this st) = Some i ->
  exists st' rest,
    init st = Ok (tt, st') /\
    calls st' =
    calls st ++
    setColour (colour (this st)) :: setInputsInline true :: rest /\
    List.filter Spec.is_style_call rest = [].
Proof.
  intros Hi.
  eexists _, (Spec.tooltip_calls i ++ Spec.connector_calls i ++
              Spec.output_calls i).
  split; [apply (init_run st i Hi)|]. split; [reflexivity|].
  rewrite !List.filter_app.
  rewrite (connector_calls_only_statement_calls Spec.is_style_call)
    by now intros [].
  unfold Spec.tooltip_calls, Spec.output_calls.
  destruct (Info.tooltip i) as [[text|f]|];
    [destruct (JS.truthy_string text)| |];
    now destruct (bool_decide _), (_ && _).
Qed.

Lemma init_style_calls_witness :
  exists st' rest,
    init (Sample.fresh Sample.pull_event) = Ok (tt, st') /\
    calls st' =
    calls (Sample.fresh Sample.pull_event) ++
    setColour (colour (this (Sample.fresh Sample.pull_event))) ::
    setInputsInline true :: rest /\
    List.filter Spec.is_style_call rest = [].
Proof.
  apply (init_style_calls (Sample.fresh Sample.pull_event)
           Sample.pull_event).
  reflexivity.
Defined.

(** ** Further properties of code generation *)

Lemma forEach_is_Ok {S A} (f : S -> A -> Result S) (ok : A -> bool) l :
  (forall s a, JS.is_Ok (f s a) = ok a) ->
  forall s, JS.is_Ok (JS.forEach f l s) = forallb ok l.
Proof.
  intros Hf. induction l as [|a l IH]; intros s; [reflexivity|].
  cbn [JS.forEach forallb]. rewrite <- (Hf s a).
  destruct (f s a); [apply IH | reflexivity].
Qed.

Section InheritedHook.
Context {framework : Framework} {subclass : Subclass}.
Variable b : Block.
Hypothesis inherited : override_generateDropdownCode = None.

Lemma callback_inherited acc name :
  JS.is_Ok (generateLuaInner__callback b acc name) = Spec.value_input b name.
Proof.
  unfold Spec.value_input.
  destruct (getInput b name) as [input|] eqn:Hinput.
  - destruct (Z.eqb_spec (Input.type input) INPUT_VALUE) as [Heq|Hne].
    + now rewrite (callback_value_input b acc name input).
    + now rewrite (callback_not_value_input b acc name input).
  - destruct (getTitle_ b name) as [title|] eqn:Htitle.
    + destruct (instanceof_FieldDropdown title) eqn:Hclass.
      * rewrite (callback_dropdown b acc name title) by assumption.
        now rewrite (this_generateDropdownCode_inherited b title inherited).
      * now rewrite (callback_not_dropdown b acc name title).
    + now rewrite callback_no_title.
Qed.

Lemma value_input_parameter_ok names :
  forallb (Spec.value_input b) names = true ->
  forallb (Spec.parameter_ok b) names = true.
Proof.
  induction names as [|name names IH]; [reflexivity|].
  cbn [forallb]. intros [Hname Hnames]%andb_prop.
  rewrite (IH Hnames), andb_true_r.
  unfold Spec.value_input in Hname.
  unfold Spec.parameter_ok, Spec.resolves, Spec.hook_returns.
  destruct (getInput b name); [|discriminate].
  now rewrite Hname.
Qed.

End InheritedHook.

(** X13: a block type that does not define [generateDropdownCode] can
    generate code only from value inputs: [generateLuaInner_] returns exactly
    when every parameter is a value input, and at the first parameter that
    is a dropdown title (the ones before it being value inputs) it throws the
    failure of the inherited hook. *)
Theorem generateLuaInner__inherited_hook
    {framework : Framework} {subclass : Subclass} (this : Block) :
  override_generateDropdownCode = None ->
  JS.is_Ok (generateLuaInner_ this) =
  forallb (Spec.value_input this) (getOrderedParameterNames this) /\
  (forall before name after title,
     getOrderedParameterNames this = before ++ name :: after ->
     forallb (Spec.value_input this) before = true ->
     getInput this name = None ->
     getTitle_ this name = Some title ->
     instanceof_FieldDropdown title = true ->
     generateLuaInner_ this =
     Throw (Failure (Some "generateDropdownCode() must be overridden."))).
Proof.
  intros Hinherited. split.
  - rewrite generateLuaInner__is_Ok.
    apply forEach_is_Ok. intros acc name.
    now apply callback_inherited.
  - intros before name after title Hnames Hbefore Hinput Htitle Hclass.
    apply generateLuaInner__Throw.
    rewrite Hnames, forEach_app.
    rewrite (forEach_ok this before [])
      by now apply value_input_parameter_ok.
    cbn [JS.forEach].
    rewrite (callback_dropdown this _ name title) by assumption.
    now rewrite (this_generateDropdownCode_inherited this title Hinherited).
Qed.

Lemma generateLuaInner__inherited_hook_witness :
  JS.is_Ok (generateLuaInner_ (framework := Sample.framework)
              (subclass := Sample.inheriting ["DISTANCE"; "DIR"])
              Sample.block) = false /\
  generateLuaInner_ (framework := Sample.framework)
    (subclass := Sample.inheriting ["DISTANCE"; "DIR"]) Sample.block =
  Throw (Failure (Some "generateDropdownCode() must be overridden.")).
Proof.
  destruct (generateLuaInner__inherited_hook (framework := Sample.framework)
              (subclass := Sample.inheriting ["DISTANCE"; "DIR"])
              Sample.block eq_refl) as [Hok Hfirst].
  split; [exact Hok|].
  apply (Hfirst ["DISTANCE"] "DIR" [] (FieldDropdown "forward"));
    reflexivity.
Defined.

(** X14: from the parameters to the result of [generateLua].  When every
    parameter resolves and the hook returns on the dropdowns, [generateLua]
    returns the call of the function on the fragments, as an array with
    [ORDER_HIGH] for a block with an output connection and followed by a
    line feed (the character of code 10) otherwise; and when [generateLuaInner_] throws, [generateLua] throws the
    same exception, with or without an output connection. *)
Theorem generateLua_call
    {framework : Framework} {subclass : Subclass} (this : Block) :
  (forallb (Spec.parameter_ok this) (getOrderedParameterNames this) = true ->
   let call :=
     getFuncName this +:+ "(" +:+
     JS.join ", " (flat_map (Spec.fragments this)
                            (getOrderedParameterNames this)) +:+ ")" in
   generateLua this =
   Ok (if outputConnection this then code_array call ORDER_HIGH
       else code_string (call +:+ String "010" ""))) /\
  (forall e, generateLuaInner_ this = Throw e -> generateLua this = Throw e).
Proof.
  split.
  - intros Hok call. unfold generateLua, generateLuaInner_.
    rewrite (forEach_ok this _ [] Hok).
    cbn [mbind Result_bind mret Result_ret app].
    now destruct (outputConnection this).
  - intros e He. unfold generateLua. now rewrite He.
Qed.

Lemma generateLua_call_witness :
  generateLua (framework := Sample.framework)
    (subclass := Sample.quoting ["DISTANCE"; "SIDE"; "DIR"])
    Sample.value_block =
  Ok (code_array "turtle.move(n + 1, 'forward')" 1) /\
  generateLua (framework := Sample.framework)
    (subclass := Sample.quoting ["DISTANCE"; "SIDE"; "DIR"])
    Sample.block =
  Ok (code_string (String.app "turtle.move(n + 1, 'forward')"
                              (String "010" ""))).
Proof.
  split.
  - exact (proj1 (generateLua_call (framework := Sample.framework)
                    (subclass := Sample.quoting ["DISTANCE"; "SIDE"; "DIR"])
                    Sample.value_block) eq_refl).
  - exact (proj1 (generateLua_call (framework := Sample.framework)
                    (subclass := Sample.quoting ["DISTANCE"; "SIDE"; "DIR"])
                    Sample.block) eq_refl).
Defined.

(** ** disallowArgTitle_ *)

(** X15: [disallowArgTitle_] returns exactly when the regular expression
    matches no argument name; it fails at the first name that matches, with
    "Illegal argument name " and that name; and it accepts a missing
    argument list. *)
Theorem disallowArgTitle__checks {D : Type} (args : list (string * D))
    (regex : string -> bool) :
  JS.is_Ok (disallowArgTitle_ (Some args) regex) =
  forallb (fun arg => negb (regex arg.1)) args /\
  (forall before name d after,
     args = before ++ (name, d) :: after ->
     forallb (fun arg => negb (regex arg.1)) before = true ->
     regex name = true ->
     disallowArgTitle_ (Some args) regex =
     Throw (AssertionFailed (Some ("Illegal argument name " +:+ name)))) /\
  disallowArgTitle_ (None : option (list (string * D))) regex = Ok tt.
Proof.
  split; [|split; [|reflexivity]].
  - unfold disallowArgTitle_. apply forEach_is_Ok.
    intros [] arg. now destruct (regex arg.1).
  - intros before name d after -> Hbefore Hname.
    unfold disallowArgTitle_. rewrite forEach_app.
    assert (forall l : list (string * D),
              forallb (fun arg => negb (regex arg.1)) l = true ->
              JS.forEach
                (fun (_ : unit) (arg : string * D) =>
                   assert (negb (regex arg.1))
                          (Some ("Illegal argument name " +:+ arg.1)))
                l tt = Ok tt) as Hpass.
    { induction l as [|a l IH]; [reflexivity|].
      cbn [forallb JS.forEach]. intros [Ha Hl]%andb_prop.
      rewrite Ha. cbn [assert]. now apply IH. }
    rewrite (Hpass before Hbefore). cbn [JS.forEach fst].
    now rewrite Hname.
Qed.

Lemma disallowArgTitle__checks_witness :
  disallowArgTitle_ (Some [("foo", 1); ("bar_internal", 2); ("baz", 3)])
                    (String.prefix "bar_") =
  Throw (AssertionFailed (Some "Illegal argument name bar_internal")).
Proof.
  destruct (disallowArgTitle__checks
              [("foo", 1); ("bar_internal", 2); ("baz", 3)]
              (String.prefix "bar_")) as (_ & Hfirst & _).
  apply (Hfirst [("foo", 1)] "bar_internal" 2 [("baz", 3)]); reflexivity.
Defined.
